(** * Serverless payment webhooks: the three Lambda handlers and the
      EventBridge routing rules, embedded and verified.

    Sources embedded here:
    - the Webhook Receiver Lambda function ([handler] and
      [validateSignature]),
    - the Event Processor Lambda function ([handler]),
    - the Notification Handler Lambda function ([handler]),
    - the two EventBridge rules and the SQS event sources of
      lib/payment-webhook-stack.ts.

    The handlers are TypeScript over [any]-typed JSON, so the embedding
    starts with the part of the JavaScript runtime they rely on: IEEE
    binary64 numbers, truthiness, [ToString], [parseFloat],
    [Number.prototype.toFixed], [JSON.parse]/[JSON.stringify] and
    [Date.prototype.toISOString].  The AWS services are a record of
    stores threaded through an error-and-state monad. *)

From Stdlib Require Import ZArith List String Ascii Bool Lia.
From Stdlib Require Import SpecFloat DecimalString.
Import ListNotations.

#[local] Set Warnings "-register-all".

Local Open Scope string_scope.
Local Open Scope Z_scope.

(* ================================================================== *)
(** * Part I.  The JavaScript runtime the handlers use                *)
(* ================================================================== *)

Module JS.

(** ** Numbers: IEEE 754 binary64 *)

Definition prec : Z := 53.
Definition emax : Z := 1024.

Definition number := spec_float.

Definition NaN : number := S754_nan.
Definition pos_zero : number := S754_zero false.

(** Nearest-even binary64 of the non-negative rational [num/den]
    (with [0 < den]), negated when [neg].  The quotient is taken with
    more than sixty bits and a sticky last bit, then rounded once by
    [binary_normalize]. *)
Definition round_ratio (neg : bool) (num den : Z) : number :=
  if num <=? 0 then S754_zero neg
  else
    let s := Z.max 0 (Z.log2 den - Z.log2 num + 64) in
    let q := (num * 2 ^ s) / den in
    let r := (num * 2 ^ s) mod den in
    let q := if r =? 0 then q else Z.lor q 1 in
    binary_normalize prec emax (if neg then - q else q) (- s) neg.

(** The number denoted by the decimal [m * 10^e], [0 <= m]. *)
Definition of_decimal (neg : bool) (m e : Z) : number :=
  if 0 <=? e then round_ratio neg (m * 10 ^ e) 1
  else round_ratio neg m (10 ^ (- e)).

Definition of_Z (z : Z) : number :=
  of_decimal (z <? 0) (Z.abs z) 0.

(** The exact value of a finite positive number as a fraction. *)
Definition ratio_of (m : positive) (e : Z) : Z * Z :=
  if 0 <=? e then (Zpos m * 2 ^ e, 1) else (Zpos m, 2 ^ (- e)).

(** [x > y], [x <= y] and friends of ECMAScript: all false on NaN. *)
Definition gt (x y : number) : bool := SFltb y x.
Definition le (x y : number) : bool := SFleb x y.
Definition lt (x y : number) : bool := SFltb x y.
Definition ge (x y : number) : bool := SFleb y x.

Definition is_nan (x : number) : bool :=
  match x with S754_nan => true | _ => false end.

Definition is_zero (x : number) : bool :=
  match x with S754_zero _ => true | _ => false end.

(** *** Number::toString (radix 10) *)

Definition digits_of (z : Z) : string :=
  NilZero.string_of_uint (N.to_uint (Z.to_N z)).

Fixpoint repeat_string (n : nat) (s : string) : string :=
  match n with O => "" | S k => s ++ repeat_string k s end.

(** [num/den >= 10^k] *)
Definition ratio_ge_pow10 (num den k : Z) : bool :=
  if 0 <=? k then 10 ^ k * den <=? num else den <=? num * 10 ^ (- k).

(** The [n] with [10^(n-1) <= num/den < 10^n]: an estimate from the
    binary logarithms, then corrected. *)
Fixpoint adjust_exp10 (fuel : nat) (num den n : Z) : Z :=
  match fuel with
  | O => n
  | S f =>
      if ratio_ge_pow10 num den n then adjust_exp10 f num den (n + 1)
      else if ratio_ge_pow10 num den (n - 1) then n
      else adjust_exp10 f num den (n - 1)
  end.

Definition exp10_of (num den : Z) : Z :=
  adjust_exp10 8 num den (((Z.log2 num - Z.log2 den) * 30103) / 100000).

(** [num/den / 10^j] as a fraction. *)
Definition scale_pow10 (num den j : Z) : Z * Z :=
  if 0 <=? j then (num, den * 10 ^ j) else (num * 10 ^ (- j), den).

(** The candidates with [k] digits around [x = m * 2^e]: the decimal
    [s * 10^(n-k)] just below and just above [x]; a candidate is kept
    when it reads back as [x], and the closer one wins (the even one on
    a tie). *)
Definition shortest_at (m : positive) (e : Z) (n k : Z) : option (Z * Z) :=
  let x := S754_finite false m e in
  let '(num, den) := ratio_of m e in
  let '(a, b) := scale_pow10 num den (n - k) in
  let lo := a / b in
  let hi := lo + 1 in
  let back s := match SFcompare (of_decimal false s (n - k)) x with
                | Some Eq => true | _ => false end in
  let norm s := if s =? 10 ^ k then (10 ^ (k - 1), n + 1) else (s, n) in
  let rem := a mod b in
  match back lo && (10 ^ (k - 1) <=? lo), back hi with
  | true, true =>
      match (2 * rem ?= b) with
      | Lt => Some (norm lo)
      | Gt => Some (norm hi)
      | Eq => Some (norm (if Z.even lo then lo else hi))
      end
  | true, false => Some (norm lo)
  | false, true => Some (norm hi)
  | false, false => None
  end.

Fixpoint shortest_from (fuel : nat) (m : positive) (e : Z) (n k : Z)
  : Z * Z * Z :=
  match fuel with
  | O => let '(num, den) := ratio_of m e in
         let '(a, b) := scale_pow10 num den (n - k) in (a / b, n, k)
  | S f =>
      match shortest_at m e n k with
      | Some (s, n') => (s, n', k)
      | None => shortest_from f m e n (k + 1)
      end
  end.

(** The triple [(s, n, k)] of Number::toString: [k] digits [s], as few
    as possible, with [s * 10^(n-k)] reading back as the number. *)
Definition shortest_digits (m : positive) (e : Z) : Z * Z * Z :=
  let '(num, den) := ratio_of m e in
  shortest_from 17 m e (exp10_of num den) 1.

Definition format_digits (s n k : Z) : string :=
  let ds := digits_of s in
  if (k <=? n) && (n <=? 21) then
    ds ++ repeat_string (Z.to_nat (n - k)) "0"
  else if (0 <? n) && (n <=? 21) then
    substring 0 (Z.to_nat n) ds ++ "." ++
    substring (Z.to_nat n) (Z.to_nat (k - n)) ds
  else if (-6 <? n) && (n <=? 0) then
    "0." ++ repeat_string (Z.to_nat (- n)) "0" ++ ds
  else
    let ex := n - 1 in
    let sign := if ex <? 0 then "-" else "+" in
    let mant := if k =? 1 then ds
                else substring 0 1 ds ++ "." ++
                     substring 1 (Z.to_nat (k - 1)) ds in
    mant ++ "e" ++ sign ++ digits_of (Z.abs ex).

Definition number_to_string (x : number) : string :=
  match x with
  | S754_nan => "NaN"
  | S754_zero _ => "0"
  | S754_infinity false => "Infinity"
  | S754_infinity true => "-Infinity"
  | S754_finite neg m e =>
      let '(s, n, k) := shortest_digits m e in
      (if neg then "-" else "") ++ format_digits s n k
  end.

(** *** Number.prototype.toFixed *)

Definition toFixed (x : number) (f : Z) : string :=
  match x with
  | S754_nan => "NaN"
  | S754_infinity false => "Infinity"
  | S754_infinity true => "-Infinity"
  | _ =>
      let '(neg, num, den) :=
        match x with
        | S754_finite neg m e => let '(a, b) := ratio_of m e in (neg, a, b)
        | _ => (false, 0, 1)
        end in
      if ratio_ge_pow10 num den 21 then number_to_string x
      else
        (* the integer nearest to x * 10^f, the larger one on a tie *)
        let n := (2 * num * 10 ^ f + den) / (2 * den) in
        let ds := digits_of n in
        let k := Z.of_nat (String.length ds) in
        let ds := if k <=? f
                  then repeat_string (Z.to_nat (f + 1 - k)) "0" ++ ds
                  else ds in
        let k := Z.of_nat (String.length ds) in
        (if neg then "-" else "") ++
        (if f =? 0 then ds
         else substring 0 (Z.to_nat (k - f)) ds ++ "." ++
              substring (Z.to_nat (k - f)) (Z.to_nat f) ds)
  end.

(** ** Values

    What [JSON.parse] produces, plus [undefined]: the handlers read
    [any]-typed data, so every field may hold any of these. *)

Inductive value :=
| VUndefined
| VNull
| VBool (b : bool)
| VNum (n : number)
| VStr (s : string)
| VArr (items : list value)
| VObj (fields : list (string * value)).

(** Exceptions the handlers can meet.  [ServiceError] is the rejection
    of an AWS SDK call. *)
Inductive exn :=
| TypeError
| SyntaxError
| RangeError
| ServiceError (service : string).

Inductive result (A : Type) :=
| Ok (a : A)
| Throw (e : exn).
Arguments Ok {A} a.
Arguments Throw {A} e.

Definition truthy (v : value) : bool :=
  match v with
  | VUndefined | VNull => false
  | VBool b => b
  | VNum n => negb (is_nan n || is_zero n)
  | VStr s => negb (String.eqb s "")
  | VArr _ | VObj _ => true
  end.

(** [a || b] *)
Definition or_else (a b : value) : value := if truthy a then a else b.

Fixpoint lookup (k : string) (fs : list (string * value)) : value :=
  match fs with
  | [] => VUndefined
  | (k', v) :: r => if String.eqb k k' then v else lookup k r
  end.

Fixpoint has_field (k : string) (fs : list (string * value)) : bool :=
  match fs with
  | [] => false
  | (k', _) :: r => String.eqb k k' || has_field k r
  end.

(** [v.k] for the property names the handlers read, none of which a
    prototype defines: a TypeError on [undefined] and [null], the own
    property of an object, [undefined] on the other primitives and on
    arrays. *)
Definition get (v : value) (k : string) : result value :=
  match v with
  | VUndefined | VNull => Throw TypeError
  | VObj fs => Ok (lookup k fs)
  | _ => Ok VUndefined
  end.

(** [v === "s"] *)
Definition strict_eq_string (v : value) (s : string) : bool :=
  match v with VStr s' => String.eqb s' s | _ => false end.

Fixpoint join (sep : string) (l : list string) : string :=
  match l with
  | [] => ""
  | [x] => x
  | x :: r => x ++ sep ++ join sep r
  end.

Fixpoint sequence {A} (l : list (option A)) : option (list A) :=
  match l with
  | [] => Some []
  | None :: _ => None
  | Some a :: r => match sequence r with Some r' => Some (a :: r') | None => None end
  end.

(** ToString.  An array is joined with commas ([null] and [undefined]
    elements give the empty string); a plain object gives
    ["[object Object]"], unless it carries an own [toString] property,
    which, coming from JSON, is not callable: ToPrimitive then finds no
    usable method and throws a TypeError ([None]). *)
Fixpoint to_string (v : value) : option string :=
  match v with
  | VUndefined => Some "undefined"
  | VNull => Some "null"
  | VBool true => Some "true"
  | VBool false => Some "false"
  | VNum n => Some (number_to_string n)
  | VStr s => Some s
  | VArr l =>
      option_map (join ",")
        (sequence
           ((fix each (l : list value) : list (option string) :=
               match l with
               | [] => []
               | (VUndefined | VNull) :: r => Some "" :: each r
               | x :: r => to_string x :: each r
               end) l))
  | VObj fs => if has_field "toString" fs then None else Some "[object Object]"
  end.

Definition ToString (v : value) : result string :=
  match to_string v with Some s => Ok s | None => Throw TypeError end.

(** [v.toString()] *)
Definition toString_method (v : value) : result string :=
  match v with
  | VUndefined | VNull => Throw TypeError
  | _ => ToString v
  end.

(** *** parseFloat *)

Definition is_digit (c : ascii) : bool :=
  let n := N_of_ascii c in (48 <=? n)%N && (n <=? 57)%N.

Definition digit_val (c : ascii) : Z := Z.of_N (N_of_ascii c) - 48.

(** Reads a run of decimal digits: the number read on top of [acc], how
    many digits there were, and the rest. *)
Fixpoint take_digits (s : string) (acc cnt : Z) : Z * Z * string :=
  match s with
  | String c r =>
      if is_digit c then take_digits r (10 * acc + digit_val c) (cnt + 1)
      else (acc, cnt, s)
  | EmptyString => (acc, cnt, s)
  end.

Definition is_e (c : ascii) : bool :=
  Ascii.eqb c "e" || Ascii.eqb c "E".

(** An exponent part [e[+-]digits], if the text starts with a whole one. *)
Definition take_exponent (s : string) : option (Z * string) :=
  match s with
  | String c r =>
      if is_e c then
        let '(neg, r) := match r with
                         | String "-" r' => (true, r')
                         | String "+" r' => (false, r')
                         | _ => (false, r)
                         end in
        let '(x, n, rest) := take_digits r 0 0 in
        if n =? 0 then None else Some (if neg then - x else x, rest)
      else None
  | EmptyString => None
  end.

(** The longest prefix that is a StrUnsignedDecimalLiteral other than
    Infinity, as mantissa and decimal exponent. *)
Definition take_decimal (s : string) : option (Z * Z * string) :=
  let '(ip, ni, r1) := take_digits s 0 0 in
  let '(m, nf, r2) :=
    match r1 with
    | String "." r =>
        let '(m, nf, r') := take_digits r ip 0 in
        if (ni =? 0) && (nf =? 0) then (ip, 0, r1) else (m, nf, r')
    | _ => (ip, 0, r1)
    end in
  if (ni =? 0) && (nf =? 0) then None
  else match take_exponent r2 with
       | Some (x, r3) => Some (m, x - nf, r3)
       | None => Some (m, - nf, r2)
       end.

Fixpoint starts_with (p s : string) : option string :=
  match p, s with
  | EmptyString, _ => Some s
  | String a p', String b s' => if Ascii.eqb a b then starts_with p' s' else None
  | _, EmptyString => None
  end.

Definition bytes (l : list N) : string :=
  string_of_list_ascii (map ascii_of_N l).

(** White space and line terminators of ECMAScript, as UTF-8. *)
Definition white_space : list string :=
  map bytes
    [[9]; [10]; [11]; [12]; [13]; [32]; [194; 160]; [225; 154; 128];
     [226; 128; 128]; [226; 128; 129]; [226; 128; 130]; [226; 128; 131];
     [226; 128; 132]; [226; 128; 133]; [226; 128; 134]; [226; 128; 135];
     [226; 128; 136]; [226; 128; 137]; [226; 128; 138]; [226; 128; 168];
     [226; 128; 169]; [226; 128; 175]; [226; 129; 159]; [227; 128; 128];
     [239; 187; 191]]%N.

Fixpoint first_match (ps : list string) (s : string) : option string :=
  match ps with
  | [] => None
  | p :: r => match starts_with p s with
              | Some rest => Some rest
              | None => first_match r s
              end
  end.

Fixpoint trim_start (fuel : nat) (s : string) : string :=
  match fuel with
  | O => s
  | S f => match first_match white_space s with
           | Some rest => trim_start f rest
           | None => s
           end
  end.

Definition parseFloat_string (s : string) : number :=
  let s := trim_start (String.length s) s in
  let '(neg, s) := match s with
                   | String "-" r => (true, r)
                   | String "+" r => (false, r)
                   | _ => (false, s)
                   end in
  match starts_with "Infinity" s with
  | Some _ => S754_infinity neg
  | None => match take_decimal s with
            | Some (m, e, _) => of_decimal neg m e
            | None => NaN
            end
  end.

(** [parseFloat(v)]: the argument is first converted with ToString. *)
Definition parseFloat (v : value) : result number :=
  match ToString v with
  | Ok s => Ok (parseFloat_string s)
  | Throw e => Throw e
  end.

(** ** JSON *)

Definition json_ws (c : ascii) : bool :=
  let n := N_of_ascii c in
  (n =? 32)%N || (n =? 9)%N || (n =? 10)%N || (n =? 13)%N.

Fixpoint skip_ws (s : string) : string :=
  match s with
  | String c r => if json_ws c then skip_ws r else s
  | EmptyString => s
  end.

(** A JSON number: an optional minus, an integer part without a
    leading zero (unless it is 0 alone), an optional fraction with at
    least one digit, an optional exponent with at least one digit. *)
Definition json_number (s : string) : option (number * string) :=
  let '(neg, s) := match s with
                   | String "-" r => (true, r)
                   | _ => (false, s)
                   end in
  let lead0 := match s with String "0" _ => true | _ => false end in
  let '(ip, ni, r1) := take_digits s 0 0 in
  if (ni =? 0) || (lead0 && (1 <? ni)) then None
  else
    let frac :=
      match r1 with
      | String "." r =>
          let '(m, nf, r') := take_digits r ip 0 in
          if nf =? 0 then None else Some (m, nf, r')
      | _ => Some (ip, 0, r1)
      end in
    match frac with
    | None => None
    | Some (m, nf, r2) =>
        match r2 with
        | String c _ =>
            if is_e c then
              match take_exponent r2 with
              | Some (x, r3) => Some (of_decimal neg m (x - nf), r3)
              | None => None
              end
            else Some (of_decimal neg m (- nf), r2)
        | EmptyString => Some (of_decimal neg m (- nf), r2)
        end
    end.

Definition hex_val (c : ascii) : option Z :=
  let n := Z.of_N (N_of_ascii c) in
  if (48 <=? n) && (n <=? 57) then Some (n - 48)
  else if (65 <=? n) && (n <=? 70) then Some (n - 55)
  else if (97 <=? n) && (n <=? 102) then Some (n - 87)
  else None.

Definition hex4 (s : string) : option (Z * string) :=
  match s with
  | String a (String b (String c (String d r))) =>
      match hex_val a, hex_val b, hex_val c, hex_val d with
      | Some a, Some b, Some c, Some d =>
          Some (((a * 16 + b) * 16 + c) * 16 + d, r)
      | _, _, _, _ => None
      end
  | _ => None
  end.

Definition byte (z : Z) : string :=
  String (ascii_of_N (Z.to_N z)) EmptyString.

(** Strings are held as UTF-8. *)
Definition utf8 (cp : Z) : string :=
  if cp <? 128 then byte cp
  else if cp <? 2048 then byte (192 + cp / 64) ++ byte (128 + cp mod 64)
  else if cp <? 65536 then
    byte (224 + cp / 4096) ++ byte (128 + (cp / 64) mod 64) ++
    byte (128 + cp mod 64)
  else
    byte (240 + cp / 262144) ++ byte (128 + (cp / 4096) mod 64) ++
    byte (128 + (cp / 64) mod 64) ++ byte (128 + cp mod 64).

Definition dquote : ascii := ascii_of_N 34.

(** The character a two-character escape stands for. *)
Definition escape_code (c : ascii) : option Z :=
  if Ascii.eqb c dquote then Some 34
  else match c with
       | "\"%char => Some 92
       | "/"%char => Some 47
       | "b"%char => Some 8
       | "f"%char => Some 12
       | "n"%char => Some 10
       | "r"%char => Some 13
       | "t"%char => Some 9
       | _ => None
       end.

(** A [\uXXXX] escape read as [u]; a high surrogate followed by the
    escape of a low one makes one code point. *)
Definition code_point (u : Z) (r : string) : Z * string :=
  if (55296 <=? u) && (u <=? 56319) then
    match r with
    | String "\" (String "u" r2) =>
        match hex4 r2 with
        | Some (l, r3) =>
            if (56320 <=? l) && (l <=? 57343)
            then (65536 + (u - 55296) * 1024 + (l - 56320), r3)
            else (u, r)
        | None => (u, r)
        end
    | _ => (u, r)
    end
  else (u, r).

Definition prepend (t : string) (x : option (string * string))
  : option (string * string) :=
  match x with
  | Some (u, rest) => Some (t ++ u, rest)
  | None => None
  end.

(** The text after an opening quote, up to the closing one. *)
Fixpoint json_string (fuel : nat) (s : string) : option (string * string) :=
  match fuel with
  | O => None
  | S f =>
      match s with
      | EmptyString => None
      | String "\" EmptyString => None
      | String "\" (String "u" r) =>
          match hex4 r with
          | None => None
          | Some (u, r1) =>
              let '(cp, r') := code_point u r1 in
              prepend (utf8 cp) (json_string f r')
          end
      | String "\" (String c r) =>
          match escape_code c with
          | Some x => prepend (byte x) (json_string f r)
          | None => None
          end
      | String c r =>
          if Ascii.eqb c dquote then Some ("", r)
          else if (N_of_ascii c <? 32)%N then None
          else prepend (String c "") (json_string f r)
      end
  end.

(** Own properties keep creation order, except that array-index keys
    come first, in ascending order (OrdinaryOwnPropertyKeys). *)
Definition index_key (k : string) : option Z :=
  let '(n, cnt, rest) := take_digits k 0 0 in
  if (0 <? cnt) && (String.eqb rest "") && (String.eqb (digits_of n) k)
     && (n <? 4294967295)
  then Some n else None.

Fixpoint set_field (k : string) (v : value) (fs : list (string * value))
  : list (string * value) :=
  match fs with
  | [] => [(k, v)]
  | (k', v') :: r =>
      if String.eqb k k' then (k, v) :: r
      else
        match index_key k, index_key k' with
        | Some i, Some j => if i <? j then (k, v) :: fs
                            else (k', v') :: set_field k v r
        | Some _, None =>
            if has_field k r then (k', v') :: set_field k v r
            else (k, v) :: fs
        | None, _ => (k', v') :: set_field k v r
        end
  end.

Section Parser.
Variable parse_value : string -> option (value * string).

(** After an element: [,] and another one, or the closing bracket. *)
Fixpoint json_elements (fuel : nat) (s : string) (acc : list value)
  : option (value * string) :=
  match fuel with
  | O => None
  | S f =>
      match parse_value s with
      | None => None
      | Some (v, r) =>
          match skip_ws r with
          | String "," r' => json_elements f r' (acc ++ [v])
          | String "]" r' => Some (VArr (acc ++ [v]), r')
          | _ => None
          end
      end
  end.

Fixpoint json_members (fuel : nat) (s : string) (acc : list (string * value))
  : option (value * string) :=
  match fuel with
  | O => None
  | S f =>
      match skip_ws s with
      | String c r =>
          if negb (Ascii.eqb c dquote) then None
          else
            match json_string (String.length r + 1) r with
            | None => None
            | Some (k, r1) =>
                match skip_ws r1 with
                | String ":" r2 =>
                    match parse_value r2 with
                    | None => None
                    | Some (v, r3) =>
                        match skip_ws r3 with
                        | String "," r' => json_members f r' (set_field k v acc)
                        | String "}" r' => Some (VObj (set_field k v acc), r')
                        | _ => None
                        end
                    end
                | _ => None
                end
            end
      | EmptyString => None
      end
  end.
End Parser.

Fixpoint json_value (fuel : nat) (s : string) : option (value * string) :=
  match fuel with
  | O => None
  | S f =>
      match skip_ws s with
      | EmptyString => None
      | String c r as s' =>
          if Ascii.eqb c dquote then
            match json_string (String.length r + 1) r with
            | Some (t, rest) => Some (VStr t, rest)
            | None => None
            end
          else
          match c with
          | "{"%char =>
              match skip_ws r with
              | String "}" r' => Some (VObj [], r')
              | _ => json_members (json_value f) (String.length r) r []
              end
          | "["%char =>
              match skip_ws r with
              | String "]" r' => Some (VArr [], r')
              | _ => json_elements (json_value f) (String.length r) r []
              end
          | "t"%char => option_map (pair (VBool true)) (starts_with "rue" r)
          | "f"%char => option_map (pair (VBool false)) (starts_with "alse" r)
          | "n"%char => option_map (pair VNull) (starts_with "ull" r)
          | _ =>
              match json_number s' with
              | Some (n, rest) => Some (VNum n, rest)
              | None => None
              end
          end
      end
  end.

(** [JSON.parse(text)]: the value, or a SyntaxError. *)
Definition JSON_parse (text : string) : result value :=
  match json_value (String.length text + 1) text with
  | Some (v, rest) =>
      match skip_ws rest with
      | EmptyString => Ok v
      | _ => Throw SyntaxError
      end
  | None => Throw SyntaxError
  end.

Definition hex_digit (z : Z) : string :=
  byte (if z <? 10 then 48 + z else 87 + z).

(** QuoteJSONString *)
Fixpoint quote_body (s : string) : string :=
  match s with
  | EmptyString => ""
  | String c r =>
      let n := Z.of_N (N_of_ascii c) in
      (if n =? 34 then "\" ++ byte 34 else if n =? 92 then "\\"
       else if n =? 8 then "\b" else if n =? 9 then "\t"
       else if n =? 10 then "\n" else if n =? 12 then "\f"
       else if n =? 13 then "\r"
       else if n <? 32 then "\u00" ++ hex_digit (n / 16) ++ hex_digit (n mod 16)
       else String c "") ++ quote_body r
  end.

Definition quote (s : string) : string := byte 34 ++ quote_body s ++ byte 34.

Definition newline : string := byte 10.

Definition wrap (opening closing gap indent : string) (parts : list string)
  : string :=
  match parts with
  | [] => opening ++ closing
  | _ =>
      if String.eqb gap "" then opening ++ join "," parts ++ closing
      else
        let inner := indent ++ gap in
        opening ++ newline ++ inner ++
        join ("," ++ newline ++ inner) parts ++ newline ++ indent ++ closing
  end.

(** SerializeJSONProperty: [None] is [undefined]. *)
Fixpoint serialize (gap indent : string) (v : value) : option string :=
  match v with
  | VUndefined => None
  | VNull => Some "null"
  | VBool true => Some "true"
  | VBool false => Some "false"
  | VNum n =>
      match n with
      | S754_nan | S754_infinity _ => Some "null"
      | _ => Some (number_to_string n)
      end
  | VStr s => Some (quote s)
  | VArr l =>
      Some (wrap "[" "]" gap indent
        ((fix each (l : list value) : list string :=
            match l with
            | [] => []
            | x :: r =>
                match serialize gap (indent ++ gap) x with
                | Some t => t
                | None => "null"
                end :: each r
            end) l))
  | VObj fs =>
      Some (wrap "{" "}" gap indent
        ((fix each (fs : list (string * value)) : list string :=
            match fs with
            | [] => []
            | (k, x) :: r =>
                match serialize gap (indent ++ gap) x with
                | Some t =>
                    (quote k ++ (if String.eqb gap "" then ":" else ": ") ++ t)
                      :: each r
                | None => each r
                end
            end) fs))
  end.

(** [JSON.stringify(v)] and [JSON.stringify(v, null, 2)] *)
Definition JSON_stringify (v : value) : option string := serialize "" "" v.
Definition JSON_stringify_2 (v : value) : option string := serialize "  " "" v.

(** [JSON.stringify({ ... })] of an object literal is always a string. *)
Definition stringify_object (fs : list (string * value)) : string :=
  match JSON_stringify (VObj fs) with Some s => s | None => "" end.

(** ** Dates *)

(** Year, month and day of a day number counted from 1970-01-01, in the
    proleptic Gregorian calendar. *)
Definition civil (days : Z) : Z * Z * Z :=
  let z := days + 719468 in
  let era := z / 146097 in
  let doe := z - era * 146097 in
  let yoe := (doe - doe / 1460 + doe / 36524 - doe / 146096) / 365 in
  let doy := doe - (365 * yoe + yoe / 4 - yoe / 100) in
  let mp := (5 * doy + 2) / 153 in
  let d := doy - (153 * mp + 2) / 5 + 1 in
  let m := if mp <? 10 then mp + 3 else mp - 9 in
  (yoe + era * 400 + (if m <=? 2 then 1 else 0), m, d).

Definition pad (width : nat) (z : Z) : string :=
  let ds := digits_of z in
  repeat_string (width - String.length ds) "0" ++ ds.

(** [Date.prototype.toISOString] of a valid time value [t], in
    milliseconds since the epoch. *)
Definition toISOString (t : Z) : string :=
  let ms := t mod 86400000 in
  let '(y, m, d) := civil (t / 86400000) in
  (if (0 <=? y) && (y <=? 9999) then pad 4 y
   else (if y <? 0 then "-" else "+") ++ pad 6 (Z.abs y)) ++
  "-" ++ pad 2 m ++ "-" ++ pad 2 d ++ "T" ++
  pad 2 (ms / 3600000) ++ ":" ++ pad 2 ((ms / 60000) mod 60) ++ ":" ++
  pad 2 ((ms / 1000) mod 60) ++ "." ++ pad 3 (ms mod 1000) ++ "Z".

(** [s.split(c)[0]] *)
Fixpoint before (c : ascii) (s : string) : string :=
  match s with
  | EmptyString => ""
  | String a r => if Ascii.eqb a c then "" else String a (before c r)
  end.

(** ToIntegerOrInfinity followed by TimeClip: [None] is an invalid date. *)
Definition time_clip (x : number) : option Z :=
  let t := match x with
           | S754_zero _ => Some 0
           | S754_finite neg m e =>
               let q := if 0 <=? e then Zpos m * 2 ^ e else Zpos m / 2 ^ (- e) in
               Some (if neg then - q else q)
           | _ => None
           end in
  match t with
  | Some t => if Z.abs t <=? 8640000000000000 then Some t else None
  | None => None
  end.

(** The time value of [new Date(v)].  How a string is read is left to
    the engine ([date_parse]) beyond the ISO format; an object or array
    is first turned into a string. *)
Definition time_value (date_parse : string -> option Z) (v : value)
  : result (option Z) :=
  match v with
  | VUndefined => Ok None
  | VNull => Ok (Some 0)
  | VBool b => Ok (Some (if b then 1 else 0))
  | VNum n => Ok (time_clip n)
  | VStr s => Ok (date_parse s)
  | VArr _ | VObj _ =>
      match ToString v with
      | Ok s => Ok (date_parse s)
      | Throw e => Throw e
      end
  end.

End JS.

Import JS.

(* ================================================================== *)
(** * Part II.  The services the handlers talk to                     *)
(* ================================================================== *)

(** ** DynamoDB data *)

Inductive attr :=
| AttrS (s : string)
| AttrN (n : string).

Definition Item := list (string * attr).

(** A DynamoDB number is a decimal; two spellings of one number are one
    key.  [(m, e)] stands for [m * 10^e] with no trailing zero in [m]. *)
Fixpoint strip_zeros (fuel : nat) (m e : Z) : Z * Z :=
  match fuel with
  | O => (m, e)
  | S f => if m =? 0 then (0, 0)
           else if m mod 10 =? 0 then strip_zeros f (m / 10) (e + 1)
           else (m, e)
  end.

(** DynamoDB keeps at most 38 significant digits, of magnitude from
    1E-130 to 9.9...E+125; it rejects what does not fit. *)
Definition ddb_in_range (m e : Z) : bool :=
  if m =? 0 then true
  else
    let d := Z.of_nat (String.length (digits_of (Z.abs m))) in
    (d <=? 38) && (-130 <=? e + d - 1) && (e + d - 1 <=? 125).

Definition ddb_number (s : string) : option (Z * Z) :=
  let '(neg, s') := match s with
                    | String "-" r => (true, r)
                    | String "+" r => (false, r)
                    | _ => (false, s)
                    end in
  match take_decimal s' with
  | Some (m, e, EmptyString) =>
      let '(m', e') :=
        strip_zeros (String.length s) (if neg then - m else m) e in
      if ddb_in_range m' e' then Some (m', e') else None
  | _ => None
  end.

(** The primary key of the payment table: [paymentId] (S) and
    [timestamp] (N). *)
Definition Key := (string * (Z * Z))%type.

Definition key_eqb (a b : Key) : bool :=
  String.eqb (fst a) (fst b) &&
  (fst (snd a) =? fst (snd b)) && (snd (snd a) =? snd (snd b)).

Definition Table := list (Key * Item).

Fixpoint table_get (k : Key) (t : Table) : option Item :=
  match t with
  | [] => None
  | (k', it) :: r => if key_eqb k k' then Some it else table_get k r
  end.

Fixpoint table_put (k : Key) (it : Item) (t : Table) : Table :=
  match t with
  | [] => [(k, it)]
  | (k', it') :: r =>
      if key_eqb k k' then (k, it) :: r else (k', it') :: table_put k it r
  end.

Fixpoint item_get (a : string) (it : Item) : option attr :=
  match it with
  | [] => None
  | (a', v) :: r => if String.eqb a a' then Some v else item_get a r
  end.

Fixpoint item_set (a : string) (v : attr) (it : Item) : Item :=
  match it with
  | [] => [(a, v)]
  | (a', v') :: r =>
      if String.eqb a a' then (a, v) :: r else (a', v') :: item_set a v r
  end.

Fixpoint has_attr (a : string) (it : Item) : bool :=
  match it with
  | [] => false
  | (b, _) :: r => String.eqb a b || has_attr a r
  end.

(** [SET a1 = v1, a2 = v2, ...] *)
Fixpoint item_set_all (sets : list (string * attr)) (it : Item) : Item :=
  match sets with
  | [] => it
  | (a, v) :: r => item_set_all r (item_set a v it)
  end.

(** ** The other stores *)

Record S3Object := {
  s3_Key : string;
  s3_Body : option string;
  s3_ContentType : string }.

Record BusEntry := {
  Source : string;
  DetailType : string;
  Detail : string }.

Record Alert := {
  Subject : string;
  Message : string }.

Inductive LogLine :=
| Log (text : string)
| Warn (text : string)
| Error (label : string) (error : exn).

(** ** The world of an invocation

    What the runtime decides ([Host]) and what the services hold.  The
    clock, the UUID source and the fate of each SDK call are read in
    order, so that two reads may differ. *)
Record Host := {
  clock : nat -> Z;
  uuid : nat -> string;
  outage : nat -> bool;
  Date_parse : string -> option Z;
  message_of : exn -> string }.

Record World := {
  host : Host;
  clock_reads : nat;
  uuids_drawn : nat;
  calls : nat;
  payment_table : Table;
  archive_bucket : list S3Object;
  processing_queue : list string;
  notification_queue : list string;
  event_bus : list BusEntry;
  alert_topic : list Alert;
  console : list LogLine }.

(** ** The monad of a handler: state and exceptions *)

Definition M (A : Type) : Type := World -> result A * World.

Definition ret {A} (a : A) : M A := fun w => (Ok a, w).

Definition throw {A} (e : exn) : M A := fun w => (Throw e, w).

Definition bind {A B} (m : M A) (k : A -> M B) : M B :=
  fun w => match m w with
           | (Ok a, w') => k a w'
           | (Throw e, w') => (Throw e, w')
           end.

Notation "x <- m ;; k" := (bind m (fun x => k))
  (at level 61, m at next level, right associativity).
Notation "m ;; k" := (bind m (fun _ => k))
  (at level 61, right associativity).

(** [try { body } catch (error) { handle }] *)
Definition try_catch {A} (body : M A) (handle : exn -> M A) : M A :=
  fun w => match body w with
           | (Ok a, w') => (Ok a, w')
           | (Throw e, w') => handle e w'
           end.

Definition lift {A} (r : result A) : M A :=
  match r with Ok a => ret a | Throw e => throw e end.

Definition modify (f : World -> World) : M unit := fun w => (Ok tt, f w).

Definition set_clock_reads n w :=
  {| host := host w; clock_reads := n; uuids_drawn := uuids_drawn w;
     calls := calls w; payment_table := payment_table w;
     archive_bucket := archive_bucket w;
     processing_queue := processing_queue w;
     notification_queue := notification_queue w;
     event_bus := event_bus w; alert_topic := alert_topic w;
     console := console w |}.

Definition set_uuids_drawn n w :=
  {| host := host w; clock_reads := clock_reads w; uuids_drawn := n;
     calls := calls w; payment_table := payment_table w;
     archive_bucket := archive_bucket w;
     processing_queue := processing_queue w;
     notification_queue := notification_queue w;
     event_bus := event_bus w; alert_topic := alert_topic w;
     console := console w |}.

Definition set_calls n w :=
  {| host := host w; clock_reads := clock_reads w;
     uuids_drawn := uuids_drawn w; calls := n;
     payment_table := payment_table w;
     archive_bucket := archive_bucket w;
     processing_queue := processing_queue w;
     notification_queue := notification_queue w;
     event_bus := event_bus w; alert_topic := alert_topic w;
     console := console w |}.

Definition set_payment_table t w :=
  {| host := host w; clock_reads := clock_reads w;
     uuids_drawn := uuids_drawn w; calls := calls w; payment_table := t;
     archive_bucket := archive_bucket w;
     processing_queue := processing_queue w;
     notification_queue := notification_queue w;
     event_bus := event_bus w; alert_topic := alert_topic w;
     console := console w |}.

Definition set_archive_bucket b w :=
  {| host := host w; clock_reads := clock_reads w;
     uuids_drawn := uuids_drawn w; calls := calls w;
     payment_table := payment_table w; archive_bucket := b;
     processing_queue := processing_queue w;
     notification_queue := notification_queue w;
     event_bus := event_bus w; alert_topic := alert_topic w;
     console := console w |}.

Definition set_processing_queue q w :=
  {| host := host w; clock_reads := clock_reads w;
     uuids_drawn := uuids_drawn w; calls := calls w;
     payment_table := payment_table w;
     archive_bucket := archive_bucket w; processing_queue := q;
     notification_queue := notification_queue w;
     event_bus := event_bus w; alert_topic := alert_topic w;
     console := console w |}.

Definition set_notification_queue q w :=
  {| host := host w; clock_reads := clock_reads w;
     uuids_drawn := uuids_drawn w; calls := calls w;
     payment_table := payment_table w;
     archive_bucket := archive_bucket w;
     processing_queue := processing_queue w; notification_queue := q;
     event_bus := event_bus w; alert_topic := alert_topic w;
     console := console w |}.

Definition set_event_bus b w :=
  {| host := host w; clock_reads := clock_reads w;
     uuids_drawn := uuids_drawn w; calls := calls w;
     payment_table := payment_table w;
     archive_bucket := archive_bucket w;
     processing_queue := processing_queue w;
     notification_queue := notification_queue w;
     event_bus := b; alert_topic := alert_topic w;
     console := console w |}.

Definition set_alert_topic t w :=
  {| host := host w; clock_reads := clock_reads w;
     uuids_drawn := uuids_drawn w; calls := calls w;
     payment_table := payment_table w;
     archive_bucket := archive_bucket w;
     processing_queue := processing_queue w;
     notification_queue := notification_queue w;
     event_bus := event_bus w; alert_topic := t;
     console := console w |}.

Definition set_console c w :=
  {| host := host w; clock_reads := clock_reads w;
     uuids_drawn := uuids_drawn w; calls := calls w;
     payment_table := payment_table w;
     archive_bucket := archive_bucket w;
     processing_queue := processing_queue w;
     notification_queue := notification_queue w;
     event_bus := event_bus w; alert_topic := alert_topic w;
     console := c |}.

(** ** Runtime operations *)

(** [Date.now()], and the time value of [new Date()] *)
Definition Date_now : M Z :=
  fun w => (Ok (clock (host w) (clock_reads w)),
            set_clock_reads (S (clock_reads w)) w).

(** [crypto.randomUUID()] *)
Definition randomUUID : M string :=
  fun w => (Ok (uuid (host w) (uuids_drawn w)),
            set_uuids_drawn (S (uuids_drawn w)) w).

(** [new Date(v).toISOString()]: a RangeError on an invalid date. *)
Definition Date_toISOString (v : value) : M string :=
  fun w => match time_value (Date_parse (host w)) v with
           | Ok (Some t) => (Ok (toISOString t), w)
           | Ok None => (Throw RangeError, w)
           | Throw e => (Throw e, w)
           end.

Definition error_message (e : exn) : M string :=
  fun w => (Ok (message_of (host w) e), w).

Definition console_log (text : string) : M unit :=
  modify (fun w => set_console (console w ++ [Log text]) w).
Definition console_warn (text : string) : M unit :=
  modify (fun w => set_console (console w ++ [Warn text]) w).
Definition console_error (label : string) (e : exn) : M unit :=
  modify (fun w => set_console (console w ++ [Error label e]) w).

(** ** SDK calls

    [client.send(command)]: the call is rejected when the service is
    out ([outage] at this call's rank), and otherwise does [action]. *)
Definition send {A} (service : string) (action : M A) : M A :=
  fun w =>
    let w' := set_calls (S (calls w)) w in
    if outage (host w) (calls w) then (Throw (ServiceError service), w')
    else action w'.

(** An attribute value [{ S: v }] must hold a string, and [{ N: s }] the
    spelling of a number; DynamoDB rejects the request otherwise. *)
Definition attr_S (v : value) : result attr :=
  match v with
  | VStr s => Ok (AttrS s)
  | _ => Throw (ServiceError "dynamodb")
  end.

Definition attr_N (s : string) : result attr :=
  match ddb_number s with
  | Some _ => Ok (AttrN s)
  | None => Throw (ServiceError "dynamodb")
  end.

(** A key needs a non-empty string and a number. *)
Definition make_key (paymentId : value) (timestamp : string) : result Key :=
  match paymentId, ddb_number timestamp with
  | VStr s, Some n =>
      if String.eqb s "" then Throw (ServiceError "dynamodb") else Ok (s, n)
  | _, _ => Throw (ServiceError "dynamodb")
  end.

Fixpoint check_item (fs : list (string * result attr)) : result Item :=
  match fs with
  | [] => Ok []
  | (a, Ok v) :: r =>
      match check_item r with
      | Ok it => Ok ((a, v) :: it)
      | Throw e => Throw e
      end
  | (_, Throw e) :: _ => Throw e
  end.

(** [PutItemCommand]: writes the item under its key, replacing any item
    already there. *)
Definition PutItem (paymentId : value) (timestamp : string)
    (rest : list (string * result attr)) : M unit :=
  send "dynamodb"
    (k <- lift (make_key paymentId timestamp) ;;
     it <- lift (check_item
                   (("paymentId", attr_S paymentId)
                    :: ("timestamp", attr_N timestamp) :: rest)) ;;
     modify (fun w => set_payment_table (table_put k it (payment_table w)) w)).

(** [UpdateItemCommand] with a [SET] expression and no condition: the
    named attributes are overwritten on the item under the key, which
    is created with its key attributes when it is absent. *)
Definition update_item (k : Key) (key_attrs sets : Item) (t : Table) : Table :=
  let old := match table_get k t with
             | Some it => it
             | None => key_attrs
             end in
  table_put k (item_set_all sets old) t.

Definition UpdateItem (paymentId : value) (timestamp : string)
    (sets : list (string * result attr)) : M unit :=
  send "dynamodb"
    (k <- lift (make_key paymentId timestamp) ;;
     ss <- lift (check_item sets) ;;
     key_attrs <- lift (check_item
                          [("paymentId", attr_S paymentId);
                           ("timestamp", attr_N timestamp)]) ;;
     modify (fun w =>
       set_payment_table (update_item k key_attrs ss (payment_table w)) w)).

(** [GetItemCommand]: [result.Item] *)
Definition GetItem (paymentId : value) (timestamp : string)
  : M (option Item) :=
  send "dynamodb"
    (k <- lift (make_key paymentId timestamp) ;;
     fun w => (Ok (table_get k (payment_table w)), w)).

(** [PutObjectCommand] on the archive bucket *)
Definition PutObject (key : string) (body : option string)
    (contentType : string) : M unit :=
  send "s3"
    (modify (fun w =>
       set_archive_bucket
         (archive_bucket w ++
          [{| s3_Key := key; s3_Body := body; s3_ContentType := contentType |}])
         w)).

Inductive Queue := PROCESSING_QUEUE | NOTIFICATION_QUEUE.

(** [SendMessageCommand] *)
Definition SendMessage (q : Queue) (body : string) : M unit :=
  send "sqs"
    (modify (fun w =>
       match q with
       | PROCESSING_QUEUE =>
           set_processing_queue (processing_queue w ++ [body]) w
       | NOTIFICATION_QUEUE =>
           set_notification_queue (notification_queue w ++ [body]) w
       end)).

(** [PutEventsCommand] with one entry on the payment event bus *)
Definition PutEvents (entry : BusEntry) : M unit :=
  send "eventbridge"
    (modify (fun w => set_event_bus (event_bus w ++ [entry]) w)).

(** [PublishCommand] on the alert topic *)
Definition Publish (subject message : string) : M unit :=
  send "sns"
    (modify (fun w =>
       set_alert_topic
         (alert_topic w ++ [{| Subject := subject; Message := message |}]) w)).

(** ** SQS event sources

    Both consumers are wired as [new SqsEventSource(queue, { batchSize:
    10 })], without [reportBatchItemFailures], and return
    [Promise<void>]: the invocation succeeds or fails as a whole.  On
    success Lambda deletes the batch from the queue; on failure every
    message of the batch becomes visible again. *)
Record SQSRecord := { body : string }.

Definition redelivered (batch : list SQSRecord) (outcome : result unit)
  : list SQSRecord :=
  match outcome with
  | Ok _ => []
  | Throw _ => batch
  end.

(** [for (const record of event.Records) { ... }] *)
Fixpoint for_each (step : SQSRecord -> M unit) (records : list SQSRecord)
  : M unit :=
  match records with
  | [] => ret tt
  | r :: rest => step r ;; for_each step rest
  end.

(* ================================================================== *)
(** * Part III.  The handlers                                         *)
(* ================================================================== *)

(** ** Webhook receiver *)

Module WebhookReceiver.

Record APIGatewayProxyEvent := {
  path : string;
  httpMethod : string;
  headers : list (string * string);
  event_body : option string }.

Record APIGatewayProxyResult := {
  statusCode : Z;
  result_body : string }.

Fixpoint header (name : string) (hs : list (string * string)) : value :=
  match hs with
  | [] => VUndefined
  | (n, v) :: r => if String.eqb n name then VStr v else header name r
  end.

Definition validateSignature (_payload : value) (_signature : value) : bool :=
  true.

(** [payload.amount?.toString()] *)
Definition optional_toString (v : value) : result value :=
  match v with
  | VUndefined | VNull => Ok VUndefined
  | _ => match toString_method v with
         | Ok s => Ok (VStr s)
         | Throw e => Throw e
         end
  end.

Definition respond (code : Z) (fields : list (string * value))
  : M APIGatewayProxyResult :=
  ret {| statusCode := code; result_body := stringify_object fields |}.

Definition handler (event : APIGatewayProxyEvent) : M APIGatewayProxyResult :=
  try_catch
    ((* Health check endpoint *)
     if String.eqb (path event) "/health" || String.eqb (httpMethod event) "GET"
     then
       now <- Date_now ;;
       respond 200 [("status", VStr "healthy");
                    ("timestamp", VStr (toISOString now))]
     else
       match event_body event with
       | None | Some EmptyString =>
           respond 400 [("error", VStr "Missing request body")]
       | Some text =>
           payload <- lift (JSON_parse text) ;;
           let signature :=
             or_else (or_else (header "X-Webhook-Signature" (headers event))
                              (header "x-webhook-signature" (headers event)))
                     (VStr "") in
           if negb (validateSignature payload signature) then
             respond 401 [("error", VStr "Invalid signature")]
           else
             supplied <- lift (get payload "paymentId") ;;
             paymentId <- (if truthy supplied then ret supplied
                           else u <- randomUUID ;; ret (VStr u)) ;;
             timestamp <- Date_now ;;
             (* Store in DynamoDB *)
             provider <- lift (get payload "provider") ;;
             amount <- lift (get payload "amount") ;;
             amount_text <- lift (optional_toString amount) ;;
             amount_n <- lift (ToString (or_else amount_text (VStr "0"))) ;;
             PutItem paymentId (number_to_string (of_Z timestamp))
               [("provider", attr_S (or_else provider (VStr "unknown")));
                ("amount", attr_N amount_n);
                ("status", attr_S (VStr "received"));
                ("rawPayload",
                 attr_S (match JSON_stringify payload with
                         | Some t => VStr t
                         | None => VUndefined
                         end))] ;;
             (* Archive to S3 *)
             today <- Date_now ;;
             let date := before "T" (toISOString today) in
             id_text <- lift (ToString paymentId) ;;
             PutObject ("webhooks/" ++ date ++ "/" ++ id_text ++ ".json")
                       (JSON_stringify_2 payload) "application/json" ;;
             (* Send to processing queue *)
             SendMessage PROCESSING_QUEUE
               (stringify_object [("paymentId", paymentId);
                                  ("timestamp", VNum (of_Z timestamp));
                                  ("payload", payload)]) ;;
             console_log ("Webhook received and processed: " ++ id_text) ;;
             respond 200 [("message", VStr "Webhook received");
                          ("paymentId", paymentId);
                          ("timestamp", VNum (of_Z timestamp))]
       end)
    (fun error =>
       console_error "Error processing webhook:" error ;;
       message <- error_message error ;;
       respond 500 [("error", VStr "Internal server error");
                    ("message", VStr message)]).

End WebhookReceiver.

(** ** Event processor *)

Module EventProcessor.

Record ProcessedPayment := {
  paymentId : value;
  timestamp : value;
  provider : value;
  amount : number;
  currency : value;
  status : value;
  processedAt : Z }.

Definition fields_of (p : ProcessedPayment) : list (string * value) :=
  [("paymentId", paymentId p);
   ("timestamp", timestamp p);
   ("provider", provider p);
   ("amount", VNum (amount p));
   ("currency", currency p);
   ("status", status p);
   ("processedAt", VNum (of_Z (processedAt p)))].

(** Transform and enrich the payment data *)
Definition processedPayment (paymentId timestamp payload : value)
  : M ProcessedPayment :=
  provider <- lift (get payload "provider") ;;
  amount <- lift (get payload "amount") ;;
  amount <- lift (parseFloat (or_else amount (VNum pos_zero))) ;;
  currency <- lift (get payload "currency") ;;
  status <- lift (get payload "status") ;;
  now <- Date_now ;;
  ret {| paymentId := paymentId;
         timestamp := timestamp;
         provider := or_else provider (VStr "unknown");
         amount := amount;
         currency := or_else currency (VStr "USD");
         status := or_else status (VStr "processed");
         processedAt := now |}.

(** The [SET] of the store update:
    [#status = :status, processedAt = :processedAt, currency = :currency] *)
Definition store_update (processed : ProcessedPayment) (now : Z)
  : list (string * result attr) :=
  [("status", attr_S (VStr "processed"));
   ("processedAt", attr_N (number_to_string (of_Z now)));
   ("currency", attr_S (currency processed))].

Definition process (record : SQSRecord) : M unit :=
  try_catch
    (message <- lift (JSON_parse (body record)) ;;
     paymentId <- lift (get message "paymentId") ;;
     timestamp <- lift (get message "timestamp") ;;
     payload <- lift (get message "payload") ;;
     processed <- processedPayment paymentId timestamp payload ;;
     (* Update DynamoDB *)
     timestamp_text <- lift (toString_method timestamp) ;;
     now <- Date_now ;;
     UpdateItem paymentId timestamp_text (store_update processed now) ;;
     (* Send to EventBridge *)
     PutEvents {| Source := "payment.processor";
                  DetailType := "Payment Processed";
                  Detail := stringify_object (fields_of processed) |} ;;
     (* If high-value payment or failed, send to notification queue *)
     original_status <- lift (get payload "status") ;;
     (if gt (amount processed) (of_Z 10000)
         || strict_eq_string original_status "failed"
      then
        SendMessage NOTIFICATION_QUEUE
          (stringify_object (fields_of processed)) ;;
        id_text <- lift (ToString paymentId) ;;
        console_log ("High-value or failed payment queued for notification: "
                     ++ id_text)
      else ret tt) ;;
     id_text <- lift (ToString paymentId) ;;
     console_log ("Processed payment " ++ id_text ++ ": $"
                  ++ number_to_string (amount processed)))
    (fun error =>
       console_error "Error processing payment:" error ;;
       (* This will cause the message to be retried *)
       throw error).

Definition handler (records : list SQSRecord) : M unit :=
  for_each process records.

(** The three attributes of the store update, once DynamoDB has
    accepted them. *)
Definition processed_attrs (now : Z) (cur : string) : Item :=
  [("status", AttrS "processed");
   ("processedAt", AttrN (number_to_string (of_Z now)));
   ("currency", AttrS cur)].

(** What the routing decision adds to the notification queue. *)
Definition notification_of (p : ProcessedPayment) (original_status : value)
  : list string :=
  if gt (amount p) (of_Z 10000) || strict_eq_string original_status "failed"
  then [stringify_object (fields_of p)] else [].

End EventProcessor.

(** ** Notification handler *)

Module NotificationHandler.

Definition lines (l : list string) : string := join newline l.

Definition subject (failed : bool) (amount : number) : string :=
  if failed
  then "URGENT: Failed Payment Alert - $" ++ number_to_string amount
  else "High-Value Payment Alert: $" ++ number_to_string amount.

(** The message body, after [trim()]. *)
Definition message (failed : bool) (amount : number)
    (id provider currency status when : string) : string :=
  lines
    ["Payment Notification";
     "====================";
     "";
     "Type: " ++ (if failed then "FAILED PAYMENT" else "HIGH-VALUE PAYMENT");
     "";
     "Payment Details:";
     "- Payment ID: " ++ id;
     "- Provider: " ++ provider;
     "- Amount: $" ++ toFixed amount 2;
     "- Currency: " ++ currency;
     "- Status: " ++ status;
     "- Timestamp: " ++ when;
     "";
     (if failed then "IMMEDIATE ACTION REQUIRED"
      else "Please review this transaction for compliance.");
     "";
     "This is an automated alert from the Payment Webhook Processing System."].

Definition notify (record : SQSRecord) : M unit :=
  try_catch
    (payment <- lift (JSON_parse (body record)) ;;
     (* Get full payment details from DynamoDB *)
     paymentId <- lift (get payment "paymentId") ;;
     timestamp <- lift (get payment "timestamp") ;;
     timestamp_text <- lift (toString_method timestamp) ;;
     item <- GetItem paymentId timestamp_text ;;
     match item with
     | None =>
         id_text <- lift (ToString paymentId) ;;
         console_warn ("Payment " ++ id_text ++ " not found in DynamoDB")
     | Some _ =>
         amount <- lift (get payment "amount") ;;
         amount <- lift (parseFloat (or_else amount (VNum pos_zero))) ;;
         provider <- lift (get payment "provider") ;;
         let provider := or_else provider (VStr "unknown") in
         status <- lift (get payment "status") ;;
         let status := or_else status (VStr "unknown") in
         let failed := strict_eq_string status "failed" in
         (* Send notification for high-value or failed payments *)
         if gt amount (of_Z 10000) || failed then
           id_text <- lift (ToString paymentId) ;;
           provider_text <- lift (ToString provider) ;;
           currency <- lift (get payment "currency") ;;
           currency_text <- lift (ToString (or_else currency (VStr "USD"))) ;;
           status_text <- lift (ToString status) ;;
           processedAt <- lift (get payment "processedAt") ;;
           when <- Date_toISOString (or_else processedAt timestamp) ;;
           Publish (subject failed amount)
                   (message failed amount id_text provider_text currency_text
                            status_text when) ;;
           console_log ("Sent alert for payment " ++ id_text ++ " ("
                        ++ status_text ++ ", $" ++ number_to_string amount ++ ")")
         else ret tt
     end)
    (fun error =>
       console_error "Error sending notification:" error ;;
       throw error).

Definition handler (records : list SQSRecord) : M unit :=
  for_each notify records.

End NotificationHandler.

(** ** Event bus rules *)

Module EventBridge.

Inductive NumericOp := GT | GTE | LT | LTE | EQ.

Inductive Target := SnsTopic | CloudWatchLogGroup.

(** An event pattern on [source], [detail-type] and [detail.amount]. *)
Record Rule := {
  ruleName : string;
  source : list string;
  detailType : list string;
  detail_amount : list (NumericOp * number);
  target : Target }.

Definition HighValuePaymentRule (environmentSuffix : string) : Rule :=
  {| ruleName := "high-value-payments-" ++ environmentSuffix;
     source := ["payment.processor"];
     detailType := ["Payment Processed"];
     detail_amount := [(GT, of_Z 10000)];
     target := SnsTopic |}.

Definition StandardPaymentRule (environmentSuffix : string) : Rule :=
  {| ruleName := "standard-payments-" ++ environmentSuffix;
     source := ["payment.processor"];
     detailType := ["Payment Processed"];
     detail_amount := [(LTE, of_Z 10000)];
     target := CloudWatchLogGroup |}.

Definition numeric (op : NumericOp) (x bound : number) : bool :=
  match op with
  | GT => gt x bound
  | GTE => ge x bound
  | LT => lt x bound
  | LTE => le x bound
  | EQ => SFeqb x bound
  end.

(** The [amount] of an event's detail, when it is a number. *)
Definition amount_of (e : BusEntry) : option number :=
  match JSON_parse (Detail e) with
  | Ok d => match get d "amount" with
            | Ok (VNum x) => Some x
            | _ => None
            end
  | Throw _ => None
  end.

(** A field of the pattern matches when the event's value is one of
    the listed ones; a numeric pattern, when the value is a number in
    the stated relation to the bound. *)
Definition matches (r : Rule) (e : BusEntry) : bool :=
  existsb (String.eqb (Source e)) (source r) &&
  existsb (String.eqb (DetailType e)) (detailType r) &&
  match amount_of e with
  | Some x => existsb (fun p => numeric (fst p) x (snd p)) (detail_amount r)
  | None => false
  end.

End EventBridge.

(* ================================================================== *)
(** * Part IV.  A concrete world, for the examples                    *)
(* ================================================================== *)

Module Example.

Definition runtime : Host :=
  {| clock := fun n => Z.of_nat n + 1730000000000;
     uuid := fun _ => "3f0c9d1e-7a4b-4c2d-9e8f-112233445566";
     outage := fun _ => false;
     Date_parse := fun _ => None;
     message_of := fun e => match e with
                            | TypeError => "Cannot read properties of undefined"
                            | SyntaxError => "Unexpected end of JSON input"
                            | RangeError => "Invalid time value"
                            | ServiceError s => s
                            end |}.

(** Empty stores, nothing read yet. *)
Definition world : World :=
  {| host := runtime; clock_reads := 0; uuids_drawn := 0; calls := 0;
     payment_table := []; archive_bucket := []; processing_queue := [];
     notification_queue := []; event_bus := []; alert_topic := [];
     console := [] |}.

Definition post (text : option string) : WebhookReceiver.APIGatewayProxyEvent :=
  {| WebhookReceiver.path := "/webhook";
     WebhookReceiver.httpMethod := "POST";
     WebhookReceiver.headers := [("X-Webhook-Signature", "t=1,v1=abc")];
     WebhookReceiver.event_body := text |}.

Definition payment (id : string) (amount : Z) (status : string) : value :=
  VObj [("paymentId", VStr id); ("provider", VStr "stripe");
        ("amount", VNum (of_Z amount)); ("currency", VStr "USD");
        ("status", VStr status)].

(** The world after the receiver has accepted the payment. *)
Definition received (id : string) (amount : Z) (status : string) : World :=
  snd (WebhookReceiver.handler (post (JSON_stringify (payment id amount status)))
                               world).

Definition queued (w : World) : list SQSRecord :=
  map Build_SQSRecord (processing_queue w).

Definition to_notify (w : World) : list SQSRecord :=
  map Build_SQSRecord (notification_queue w).

(** ... and after the processor has consumed the queue. *)
Definition processed (id : string) (amount : Z) (status : string) : World :=
  let w := received id amount status in
  snd (EventProcessor.handler (queued w) w).

(** An attribute of the item stored under a key. *)
Definition stored_attr (id : string) (n : Z * Z) (a : string) (w : World)
  : option attr :=
  match table_get (id, n) (payment_table w) with
  | Some it => item_get a it
  | None => None
  end.

(** A payload with neither provider nor currency, an amount that is not
    a number and the status of a failed payment, and its normalized
    event. *)
Definition bare_payload : value :=
  VObj [("amount", VStr "abc"); ("status", VStr "failed")].

Definition bare_event : EventProcessor.ProcessedPayment :=
  {| EventProcessor.paymentId := VStr "pay_9";
     EventProcessor.timestamp := VNum (of_Z 1730000000000);
     EventProcessor.provider := VStr "unknown";
     EventProcessor.amount := NaN;
     EventProcessor.currency := VStr "USD";
     EventProcessor.status := VStr "failed";
     EventProcessor.processedAt := 1730000000000 |}.

(** The message the receiver queued for pay_1, and one that is not JSON. *)
Definition good_record : SQSRecord :=
  {| body := stringify_object
               [("paymentId", VStr "pay_1");
                ("timestamp", VNum (of_Z 1730000000000));
                ("payload", payment "pay_1" 15000 "succeeded")] |}.

Definition bad_record : SQSRecord := {| body := "{" |}.

(** The store after [good_record] was processed once, and once more. *)
Definition once : World :=
  snd (EventProcessor.process good_record (received "pay_1" 15000 "succeeded")).

Definition twice : World := snd (EventProcessor.process good_record once).

(** A notification for a payment the store does not hold. *)
Definition orphan_record : SQSRecord :=
  {| body := stringify_object
               [("paymentId", VStr "pay_404");
                ("timestamp", VNum (of_Z 1730000000000));
                ("amount", VNum (of_Z 20000));
                ("status", VStr "failed")] |}.

(** The two scenarios of the specification, up to the notifier. *)
Definition failed_50 : World := processed "pay_2" 50 "failed".
Definition high_15000 : World := processed "pay_1" 15000 "succeeded".

Definition subjects_sent (w : World) : list string :=
  map Subject (alert_topic (snd (NotificationHandler.handler (to_notify w) w))).

(** The event the processor publishes for a payment of amount [a]. *)
Definition processed_event (a : number) : BusEntry :=
  {| Source := "payment.processor";
     DetailType := "Payment Processed";
     Detail := stringify_object
                 (EventProcessor.fields_of
                    {| EventProcessor.paymentId := VStr "pay_1";
                       EventProcessor.timestamp := VNum (of_Z 1730000000000);
                       EventProcessor.provider := VStr "stripe";
                       EventProcessor.amount := a;
                       EventProcessor.currency := VStr "USD";
                       EventProcessor.status := VStr "succeeded";
                       EventProcessor.processedAt := 1730000000002 |}) |}.

(** The webhook of the first scenario and the answer to it. *)
Definition accepted : WebhookReceiver.APIGatewayProxyEvent :=
  post (JSON_stringify (payment "pay_1" 15000 "succeeded")).

Definition accepted_response : WebhookReceiver.APIGatewayProxyResult :=
  {| WebhookReceiver.statusCode := 200;
     WebhookReceiver.result_body :=
       stringify_object [("message", VStr "Webhook received");
                         ("paymentId", VStr "pay_1");
                         ("timestamp", VNum (of_Z 1730000000000))] |}.

End Example.

(** ** Further scenarios: other headers, a rejected call, a webhook
    without an identifier, a notification with a given processing time *)

Module Scenario.

(** The same request under other headers. *)
Definition with_headers (hs : list (string * string))
    (event : WebhookReceiver.APIGatewayProxyEvent)
  : WebhookReceiver.APIGatewayProxyEvent :=
  {| WebhookReceiver.path := WebhookReceiver.path event;
     WebhookReceiver.httpMethod := WebhookReceiver.httpMethod event;
     WebhookReceiver.headers := hs;
     WebhookReceiver.event_body := WebhookReceiver.event_body event |}.



(** A webhook that names no payment. *)
Definition anonymous : WebhookReceiver.APIGatewayProxyEvent :=
  Example.post (JSON_stringify (VObj [("amount", VNum (of_Z 25))])).

(** The notification of a payment of 20000 processed at [processedAt]. *)
Definition notice (processedAt : Z) : SQSRecord :=
  {| body := stringify_object
               [("paymentId", VStr "pay_1");
                ("timestamp", VNum (of_Z 1730000000000));
                ("provider", VStr "stripe");
                ("amount", VNum (of_Z 20000));
                ("currency", VStr "USD");
                ("status", VStr "succeeded");
                ("processedAt", VNum (of_Z processedAt))] |}.

End Scenario.

(* ================================================================== *)
(** * Part V.  Properties                                             *)
(* ================================================================== *)

(** ** Reasoning about runs *)

Lemma pair_eta {A B} (p : A * B) : p = (fst p, snd p).
Proof. destruct p; reflexivity. Qed.

Lemma bind_Ok {A B} (m : M A) (k : A -> M B) w b w' :
  bind m k w = (Ok b, w') ->
  exists a w1, m w = (Ok a, w1) /\ k a w1 = (Ok b, w').
Proof.
  unfold bind. destruct (m w) as [[a|e] w1]; intros H.
  - exists a, w1; split; [reflexivity | exact H].
  - discriminate.
Qed.

Lemma bind_Throw {A B} (m : M A) (k : A -> M B) w e w' :
  bind m k w = (Throw e, w') ->
  m w = (Throw e, w') \/
  exists a w1, m w = (Ok a, w1) /\ k a w1 = (Throw e, w').
Proof.
  unfold bind. destruct (m w) as [[a|e0] w1]; intros H.
  - right. exists a, w1; split; [reflexivity | exact H].
  - left. inversion H; reflexivity.
Qed.

Lemma bind_step {A B} (m : M A) (k : A -> M B) w a w1 :
  m w = (Ok a, w1) -> bind m k w = k a w1.
Proof. unfold bind. intros ->. reflexivity. Qed.

Lemma lift_Ok {A} (r : result A) w a w' :
  lift r w = (Ok a, w') -> r = Ok a /\ w' = w.
Proof.
  destruct r; unfold lift, ret, throw; intros H; inversion H; auto.
Qed.

Lemma lift_Throw {A} (r : result A) w e w' :
  lift r w = (Throw e, w') -> r = Throw e /\ w' = w.
Proof.
  destruct r; unfold lift, ret, throw; intros H; inversion H; auto.
Qed.

Lemma send_Ok {A} svc (action : M A) w a w' :
  send svc action w = (Ok a, w') ->
  outage (host w) (calls w) = false /\
  action (set_calls (S (calls w)) w) = (Ok a, w').
Proof.
  unfold send. destruct (outage (host w) (calls w)); intros H.
  - discriminate.
  - auto.
Qed.

Lemma send_Throw {A} svc (action : M A) w e w' :
  send svc action w = (Throw e, w') ->
  (outage (host w) (calls w) = true /\ e = ServiceError svc /\
   w' = set_calls (S (calls w)) w) \/
  (outage (host w) (calls w) = false /\
   action (set_calls (S (calls w)) w) = (Throw e, w')).
Proof.
  unfold send. destruct (outage (host w) (calls w)); intros H.
  - left. inversion H; auto.
  - right. auto.
Qed.

Lemma ret_Ok {A} (a b : A) w w' : ret a w = (Ok b, w') -> b = a /\ w' = w.
Proof. unfold ret. intros H. injection H as <- <-. auto. Qed.

Lemma modify_Ok f w u w' : modify f w = (Ok u, w') -> w' = f w.
Proof. unfold modify. intros H. injection H as _ <-. reflexivity. Qed.

Lemma Date_now_Ok w t w' :
  Date_now w = (Ok t, w') ->
  t = clock (host w) (clock_reads w) /\
  w' = set_clock_reads (S (clock_reads w)) w.
Proof. unfold Date_now. intros H. injection H as <- <-. auto. Qed.

Lemma randomUUID_Ok w u w' :
  randomUUID w = (Ok u, w') ->
  u = uuid (host w) (uuids_drawn w) /\
  w' = set_uuids_drawn (S (uuids_drawn w)) w.
Proof. unfold randomUUID. intros H. injection H as <- <-. auto. Qed.

Ltac world_simpl :=
  cbn [host clock_reads uuids_drawn calls payment_table archive_bucket
       processing_queue notification_queue event_bus alert_topic console
       set_clock_reads set_uuids_drawn set_calls set_payment_table
       set_archive_bucket set_processing_queue set_notification_queue
       set_event_bus set_alert_topic set_console] in *.

Ltac inv_run :=
  repeat match goal with
  | H : bind _ _ _ = (Ok _, _) |- _ =>
      apply bind_Ok in H; destruct H as (? & ? & ? & H); cbv beta in H
  | H : lift _ _ = (Ok _, _) |- _ =>
      apply lift_Ok in H; destruct H as [? ?]; subst
  | H : send _ _ _ = (Ok _, _) |- _ =>
      apply send_Ok in H; destruct H as [? H]
  | H : ret _ _ = (Ok _, _) |- _ =>
      apply ret_Ok in H; destruct H as [? ?]; subst
  | H : modify _ _ = (Ok _, _) |- _ => apply modify_Ok in H; subst
  | H : Date_now _ = (Ok _, _) |- _ =>
      apply Date_now_Ok in H; destruct H as [? ?]; subst
  | H : randomUUID _ = (Ok _, _) |- _ =>
      apply randomUUID_Ok in H; destruct H as [? ?]; subst
  | H : console_log _ _ = (Ok _, _) |- _ =>
      unfold console_log in H
  | H : console_warn _ _ = (Ok _, _) |- _ =>
      unfold console_warn in H
  | H : PutItem _ _ _ _ = (Ok _, _) |- _ => unfold PutItem in H
  | H : UpdateItem _ _ _ _ = (Ok _, _) |- _ => unfold UpdateItem in H
  | H : GetItem _ _ _ = (Ok _, _) |- _ => unfold GetItem in H
  | H : PutObject _ _ _ _ = (Ok _, _) |- _ => unfold PutObject in H
  | H : SendMessage _ _ _ = (Ok _, _) |- _ => unfold SendMessage in H
  | H : PutEvents _ _ = (Ok _, _) |- _ => unfold PutEvents in H
  | H : Publish _ _ _ = (Ok _, _) |- _ => unfold Publish in H
  end.

Lemma make_key_Ok v t k :
  make_key v t = Ok k ->
  exists s n, v = VStr s /\ s <> "" /\ ddb_number t = Some n /\ k = (s, n).
Proof.
  unfold make_key. destruct v; try discriminate.
  destruct (ddb_number t) as [n|]; try discriminate.
  destruct (String.eqb s "") eqn:E; try discriminate.
  intros H; inversion H; subst. exists s, n.
  repeat split; auto. apply String.eqb_neq; exact E.
Qed.

Lemma try_rethrow_Ok {A} (body : M A) label w a w' :
  try_catch body (fun error => console_error label error ;; throw error) w
    = (Ok a, w') ->
  body w = (Ok a, w').
Proof.
  unfold try_catch. destruct (body w) as [[a0|e] w0]; [auto|].
  unfold bind, console_error, modify, throw. discriminate.
Qed.

Lemma try_rethrow_Throw {A} (body : M A) label w e w' :
  try_catch body (fun error => console_error label error ;; throw error) w
    = (Throw e, w') ->
  exists w0, body w = (Throw e, w0) /\
             w' = set_console (console w0 ++ [Error label e]) w0.
Proof.
  unfold try_catch. destruct (body w) as [[a0|e0] w0]; [discriminate|].
  unfold bind, console_error, modify, throw. intros H; injection H as <- <-.
  exists w0; auto.
Qed.

Lemma Date_now_not_Throw w e w' : Date_now w = (Throw e, w') -> False.
Proof. unfold Date_now. discriminate. Qed.

Lemma modify_not_Throw f w e w' : modify f w = (Throw e, w') -> False.
Proof. unfold modify. discriminate. Qed.

Lemma ret_not_Throw {A} (a : A) w e w' : ret a w = (Throw e, w') -> False.
Proof. unfold ret. discriminate. Qed.

Ltac inv_fail :=
  repeat first
    [ progress inv_run
    | match goal with
      | H : bind _ _ _ = (Throw _, _) |- _ =>
          apply bind_Throw in H;
          destruct H as [H | (? & ? & ? & H)]; cbv beta in H
      | H : lift _ _ = (Throw _, _) |- _ =>
          apply lift_Throw in H; destruct H as [? ?]; subst
      | H : send _ _ _ = (Throw _, _) |- _ =>
          apply send_Throw in H;
          destruct H as [(? & ? & ?) | (? & H)]; subst
      | H : Date_now _ = (Throw _, _) |- _ =>
          exfalso; exact (Date_now_not_Throw _ _ _ H)
      | H : modify _ _ = (Throw _, _) |- _ =>
          exfalso; exact (modify_not_Throw _ _ _ _ H)
      | H : ret _ _ = (Throw _, _) |- _ =>
          exfalso; exact (ret_not_Throw _ _ _ _ H)
      | H : console_log _ _ = (Throw _, _) |- _ => unfold console_log in H
      | H : console_warn _ _ = (Throw _, _) |- _ => unfold console_warn in H
      | H : PutItem _ _ _ _ = (Throw _, _) |- _ => unfold PutItem in H
      | H : UpdateItem _ _ _ _ = (Throw _, _) |- _ => unfold UpdateItem in H
      | H : GetItem _ _ _ = (Throw _, _) |- _ => unfold GetItem in H
      | H : PutObject _ _ _ _ = (Throw _, _) |- _ => unfold PutObject in H
      | H : SendMessage _ _ _ = (Throw _, _) |- _ => unfold SendMessage in H
      | H : PutEvents _ _ = (Throw _, _) |- _ => unfold PutEvents in H
      | H : Publish _ _ _ = (Throw _, _) |- _ => unfold Publish in H
      | H : EventProcessor.processedPayment _ _ _ _ = _ |- _ =>
          unfold EventProcessor.processedPayment in H
      | H : (if ?c then _ else _) _ = (_, _) |- _ => destruct c
      end ].

Lemma key_eqb_refl k : key_eqb k k = true.
Proof.
  destruct k as [s [m e]]. unfold key_eqb; simpl.
  rewrite String.eqb_refl, !Z.eqb_refl. reflexivity.
Qed.

Lemma table_get_put k it t : table_get k (table_put k it t) = Some it.
Proof.
  induction t as [|[k' it'] t IH]; simpl.
  - rewrite key_eqb_refl. reflexivity.
  - destruct (key_eqb k k') eqn:E; simpl.
    + rewrite key_eqb_refl. reflexivity.
    + rewrite E. exact IH.
Qed.

Lemma attr_S_Ok v a : attr_S v = Ok a -> exists s, v = VStr s /\ a = AttrS s.
Proof.
  destruct v; simpl; try discriminate. intros H; injection H as <-. eauto.
Qed.

Lemma attr_N_Ok t a : attr_N t = Ok a -> a = AttrN t.
Proof.
  unfold attr_N. destruct (ddb_number t); [|discriminate].
  intros H; injection H as <-. reflexivity.
Qed.

Lemma check_item_cons a r rest it :
  check_item ((a, r) :: rest) = Ok it ->
  exists v it', r = Ok v /\ check_item rest = Ok it' /\ it = (a, v) :: it'.
Proof.
  simpl. destruct r as [v|e]; [|discriminate].
  destruct (check_item rest) as [it'|e]; [|discriminate].
  intros H; injection H as <-. eauto.
Qed.

Lemma UpdateItem_Ok pid ts_text sets w u w' :
  UpdateItem pid ts_text sets w = (Ok u, w') ->
  exists id n ss,
    pid = VStr id /\ id <> "" /\ ddb_number ts_text = Some n /\
    check_item sets = Ok ss /\
    outage (host w) (calls w) = false /\
    w' = set_payment_table
           (update_item (id, n)
              [("paymentId", AttrS id); ("timestamp", AttrN ts_text)]
              ss (payment_table w))
           (set_calls (S (calls w)) w).
Proof.
  unfold UpdateItem. intros H. inv_run.
  match goal with H : make_key _ _ = Ok _ |- _ =>
    apply make_key_Ok in H; destruct H as (id & n & -> & Hid & Hn & ->) end.
  match goal with H : check_item [_; _] = Ok _ |- _ =>
    simpl in H; unfold attr_N in H; rewrite Hn in H; injection H as <- end.
  exists id, n. eexists. repeat split; eauto.
Qed.

Lemma PutEvents_Ok entry w u w' :
  PutEvents entry w = (Ok u, w') ->
  outage (host w) (calls w) = false /\
  w' = set_event_bus (event_bus w ++ [entry]) (set_calls (S (calls w)) w).
Proof. unfold PutEvents. intros H. inv_run. auto. Qed.

Lemma SendMessage_Ok q text w u w' :
  SendMessage q text w = (Ok u, w') ->
  outage (host w) (calls w) = false /\
  w' = match q with
       | PROCESSING_QUEUE =>
           set_processing_queue (processing_queue w ++ [text])
             (set_calls (S (calls w)) w)
       | NOTIFICATION_QUEUE =>
           set_notification_queue (notification_queue w ++ [text])
             (set_calls (S (calls w)) w)
       end.
Proof. unfold SendMessage. intros H. inv_run. destruct q; auto. Qed.

Lemma console_log_Ok text w u w' :
  console_log text w = (Ok u, w') ->
  w' = set_console (console w ++ [Log text]) w.
Proof. unfold console_log. intros H. inv_run. reflexivity. Qed.

(** ** The receiver *)

Section Receiver.
Import WebhookReceiver.

(** C9.  A request on the path /health, or with the method GET, is
    answered 200 with the body [{status: "healthy", timestamp}], the
    timestamp being the ISO form of the current time; the world after
    the call differs from the one before only in that the clock was
    read once: no item was put, no object archived, no message sent, no
    SDK call made at all. *)
Theorem health_check_bypasses_everything :
  forall (event : APIGatewayProxyEvent) (w : World),
    path event = "/health" \/ httpMethod event = "GET" ->
    let now := clock (host w) (clock_reads w) in
    let w' := snd (handler event w) in
    handler event w =
      (Ok {| statusCode := 200;
             result_body :=
               stringify_object [("status", VStr "healthy");
                                 ("timestamp", VStr (toISOString now))] |},
       set_clock_reads (S (clock_reads w)) w)
    /\ payment_table w' = payment_table w
    /\ archive_bucket w' = archive_bucket w
    /\ processing_queue w' = processing_queue w
    /\ notification_queue w' = notification_queue w
    /\ event_bus w' = event_bus w
    /\ alert_topic w' = alert_topic w
    /\ calls w' = calls w.
Proof.
  intros event w Hhc now w'.
  assert (Hcond : String.eqb (path event) "/health"
                  || String.eqb (httpMethod event) "GET" = true).
  { destruct Hhc as [-> | ->]; [reflexivity | apply orb_true_r]. }
  assert (Hrun : handler event w =
      (Ok {| statusCode := 200;
             result_body :=
               stringify_object [("status", VStr "healthy");
                                 ("timestamp", VStr (toISOString now))] |},
       set_clock_reads (S (clock_reads w)) w)).
  { unfold handler, try_catch. rewrite Hcond. reflexivity. }
  subst w'. rewrite Hrun. repeat split.
Qed.

(** A POST on /health in the example world. *)
Lemma health_check_bypasses_everything_witness :
  let event := {| path := "/health"; httpMethod := "POST"; headers := [];
                  event_body := Some "{}" |} in
  fst (handler event Example.world) =
    Ok {| statusCode := 200;
          result_body :=
            stringify_object
              [("status", VStr "healthy");
               ("timestamp", VStr "2024-10-27T03:33:20.000Z")] |}
  /\ payment_table (snd (handler event Example.world)) = [].
Proof.
  intro event.
  destruct (health_check_bypasses_everything event Example.world
              (or_introl eq_refl)) as (Hrun & Htable & _).
  split.
  - rewrite Hrun. reflexivity.
  - exact Htable.
Defined.

(** C4, as the code has it.  Take a request that is not a health check.
    When the body is missing ([null] or empty) the answer is 400 with
    the body [{error: "Missing request body"}] and the world is left as
    it was.  When the body is there but [JSON.parse] rejects it, the
    exception reaches the handler's catch-all: the answer is 500 with
    [{error: "Internal server error", message}], one line goes to the
    error log, and again nothing is stored, archived or queued and no
    SDK call is made. *)
Theorem invalid_body_is_refused_without_side_effect :
  forall (event : APIGatewayProxyEvent) (w : World),
    path event <> "/health" -> httpMethod event <> "GET" ->
    (event_body event = None \/ event_body event = Some "" ->
     handler event w =
       (Ok {| statusCode := 400;
              result_body :=
                stringify_object [("error", VStr "Missing request body")] |},
        w))
    /\
    (forall text e,
       event_body event = Some text -> text <> "" ->
       JSON_parse text = Throw e ->
       handler event w =
         (Ok {| statusCode := 500;
                result_body :=
                  stringify_object
                    [("error", VStr "Internal server error");
                     ("message", VStr (message_of (host w) e))] |},
          set_console (console w ++ [Error "Error processing webhook:" e]) w)
       /\ let w' := snd (handler event w) in
          payment_table w' = payment_table w
          /\ archive_bucket w' = archive_bucket w
          /\ processing_queue w' = processing_queue w
          /\ calls w' = calls w).
Proof.
  intros event w Hpath Hmethod.
  assert (Hcond : String.eqb (path event) "/health"
                  || String.eqb (httpMethod event) "GET" = false).
  { apply orb_false_iff; split; apply String.eqb_neq; assumption. }
  split.
  - intros [Hb | Hb]; unfold handler, try_catch; rewrite Hcond, Hb; reflexivity.
  - intros text e Hb Hne Hparse.
    assert (Hrun : handler event w =
      (Ok {| statusCode := 500;
             result_body :=
               stringify_object
                 [("error", VStr "Internal server error");
                  ("message", VStr (message_of (host w) e))] |},
       set_console (console w ++ [Error "Error processing webhook:" e]) w)).
    { unfold handler, try_catch. rewrite Hcond, Hb.
      destruct text as [|c text']; [congruence|].
      unfold bind at 1. rewrite Hparse. reflexivity. }
    rewrite Hrun. repeat split.
Qed.

(** A webhook with no body, and one whose body is [{]. *)
Lemma invalid_body_is_refused_without_side_effect_witness :
  fst (handler (Example.post None) Example.world) =
    Ok {| statusCode := 400;
          result_body :=
            stringify_object [("error", VStr "Missing request body")] |}
  /\ fst (handler (Example.post (Some "{")) Example.world) =
       Ok {| statusCode := 500;
             result_body :=
               stringify_object
                 [("error", VStr "Internal server error");
                  ("message", VStr "Unexpected end of JSON input")] |}.
Proof.
  split.
  - destruct (invalid_body_is_refused_without_side_effect
                (Example.post None) Example.world) as [H _];
      [discriminate | discriminate |].
    rewrite H; [reflexivity | left; reflexivity].
  - destruct (invalid_body_is_refused_without_side_effect
                (Example.post (Some "{")) Example.world) as [_ H];
      [discriminate | discriminate |].
    assert (Hne : "{" <> "") by discriminate.
    assert (Hparse : JSON_parse "{" = Throw SyntaxError) by reflexivity.
    destruct (H "{" SyntaxError eq_refl Hne Hparse) as [Hrun _].
    rewrite Hrun. reflexivity.
Defined.

(** C4, as the spec has it, fails: the body [{] is not JSON, the request
    is not a health check, and the answer is 500, not 400. *)
Lemma unparseable_body_is_answered_500 :
  JSON_parse "{" = Throw SyntaxError
  /\ option_map statusCode
       (match fst (handler (Example.post (Some "{")) Example.world) with
        | Ok r => Some r
        | Throw _ => None
        end) = Some 500
  /\ 500 <> 400.
Proof.
  split; [reflexivity | split; [vm_compute; reflexivity | discriminate]].
Qed.

Lemma check_item_key v t rest it :
  check_item (("paymentId", attr_S v) :: ("timestamp", attr_N t) :: rest) = Ok it ->
  forall s, v = VStr s ->
  item_get "paymentId" it = Some (AttrS s) /\
  item_get "timestamp" it = Some (AttrN t).
Proof.
  intros H s ->. simpl in H.
  unfold attr_N in H. destruct (ddb_number t); try discriminate.
  destruct (check_item rest); try discriminate.
  inversion H; subst. split; reflexivity.
Qed.

(** C10.  When a request that is not a health check is answered 200,
    one payment id and one timestamp (the first reading of the clock)
    run through everything the call did: the item now stored under the
    key made of that id and timestamp carries them as its [paymentId]
    and [timestamp] attributes, the object archived is named
    [webhooks/<date>/<id>.json], the message put on the processing
    queue is [{paymentId, timestamp, payload}] with the same two values,
    and so is the body of the answer. *)
Theorem receiver_uses_one_id_and_timestamp :
  forall (event : APIGatewayProxyEvent) (w : World) r w',
    path event <> "/health" -> httpMethod event <> "GET" ->
    handler event w = (Ok r, w') -> statusCode r = 200 ->
    exists (paymentId : string) (timestamp : Z) (payload : value)
           (n : Z * Z) (item : Item) (date : string),
      timestamp = clock (host w) (clock_reads w)
      /\ ddb_number (number_to_string (of_Z timestamp)) = Some n
      /\ table_get (paymentId, n) (payment_table w') = Some item
      /\ item_get "paymentId" item = Some (AttrS paymentId)
      /\ item_get "timestamp" item
         = Some (AttrN (number_to_string (of_Z timestamp)))
      /\ archive_bucket w' =
         (archive_bucket w ++
          [{| s3_Key := "webhooks/" ++ date ++ "/" ++ paymentId ++ ".json";
              s3_Body := JSON_stringify_2 payload;
              s3_ContentType := "application/json" |}])%list
      /\ processing_queue w' =
         (processing_queue w ++
          [stringify_object [("paymentId", VStr paymentId);
                             ("timestamp", VNum (of_Z timestamp));
                             ("payload", payload)]])%list
      /\ result_body r =
         stringify_object [("message", VStr "Webhook received");
                           ("paymentId", VStr paymentId);
                           ("timestamp", VNum (of_Z timestamp))].
Proof.
  intros event w r w' Hpath Hmethod Hrun H200.
  assert (Hcond : String.eqb (path event) "/health"
                  || String.eqb (httpMethod event) "GET" = false).
  { apply orb_false_iff; split; apply String.eqb_neq; assumption. }
  unfold handler in Hrun. rewrite Hcond in Hrun.
  unfold try_catch in Hrun.
  match type of Hrun with
  | context [match ?b w with _ => _ end] =>
      destruct (b w) as [[r0|e] w0] eqn:Hbody
  end.
  2:{ unfold bind, console_error, modify, error_message, respond, ret in Hrun.
      inversion Hrun; subst. simpl in H200. discriminate. }
  inversion Hrun; subst; clear Hrun.
  destruct (event_body event) as [[|c text]|] eqn:Hb.
  1,3: unfold respond, ret in Hbody; inversion Hbody; subst;
       simpl in H200; discriminate.
  unfold validateSignature in Hbody. cbn [negb] in Hbody.
  apply bind_Ok in Hbody; destruct Hbody as (payload & w1 & Hparse & Hbody).
  apply lift_Ok in Hparse; destruct Hparse as [Hparse ->].
  apply bind_Ok in Hbody; destruct Hbody as (supplied & w1 & Hsup & Hbody).
  apply lift_Ok in Hsup; destruct Hsup as [Hsup ->].
  apply bind_Ok in Hbody; destruct Hbody as (pid & w1 & Hpid & Hbody).
  assert (Hw1 : host w1 = host w /\ clock_reads w1 = clock_reads w
                /\ archive_bucket w1 = archive_bucket w
                /\ processing_queue w1 = processing_queue w).
  { destruct (truthy supplied); inv_run; repeat split. }
  destruct Hw1 as (Hh & Hc & Ha & Hq). clear Hpid.
  cbv beta in Hbody. inv_run.
  unfold respond in Hbody. apply ret_Ok in Hbody. destruct Hbody as [-> ->].
  world_simpl.
  match goal with H : make_key _ _ = Ok _ |- _ =>
    apply make_key_Ok in H; destruct H as (s & n & -> & Hs & Hn & ->) end.
  match goal with H : ToString (VStr s) = Ok _ |- _ =>
    injection H as <- end.
  match goal with H : check_item _ = Ok _ |- _ =>
    apply check_item_key with (s := s) in H; [destruct H as [Hi1 Hi2] | reflexivity] end.
  rewrite Hh, Hc, Ha, Hq in *.
  do 6 eexists. 
  split; [reflexivity|].
  split; [exact Hn|].
  split; [apply table_get_put|].
  split; [exact Hi1|].
  split; [exact Hi2|].
  split; [reflexivity|].
  split; reflexivity.
Qed.


(** The webhook of pay_1 in the example world. *)
Lemma receiver_uses_one_id_and_timestamp_witness :
  fst (handler Example.accepted Example.world) = Ok Example.accepted_response
  /\ exists paymentId timestamp,
       result_body Example.accepted_response
       = stringify_object [("message", VStr "Webhook received");
                           ("paymentId", VStr paymentId);
                           ("timestamp", VNum (of_Z timestamp))]
       /\ exists payload,
            processing_queue (snd (handler Example.accepted Example.world))
            = [stringify_object [("paymentId", VStr paymentId);
                                 ("timestamp", VNum (of_Z timestamp));
                                 ("payload", payload)]].
Proof.
  assert (Hok : fst (handler Example.accepted Example.world) = Ok Example.accepted_response)
    by (vm_compute; reflexivity).
  split; [exact Hok|].
  assert (Hrun : handler Example.accepted Example.world
                 = (Ok Example.accepted_response, snd (handler Example.accepted Example.world))).
  { rewrite (pair_eta (handler Example.accepted Example.world)) at 1.
    rewrite Hok. reflexivity. }
  destruct (receiver_uses_one_id_and_timestamp Example.accepted Example.world
              Example.accepted_response (snd (handler Example.accepted Example.world)))
    as (pid & ts & payload & n & item & date & _ & _ & _ & _ & _ & _ & Hq & Hb).
  - discriminate.
  - discriminate.
  - exact Hrun.
  - reflexivity.
  - exists pid, ts. split; [exact Hb|]. exists payload. exact Hq.
Defined.

End Receiver.

(** ** The processor *)

Section Processor.
Import EventProcessor.

Lemma store_update_Ok p now ss :
  check_item (store_update p now) = Ok ss ->
  exists cur,
    currency p = VStr cur /\
    ss = [("status", AttrS "processed");
          ("processedAt", AttrN (number_to_string (of_Z now)));
          ("currency", AttrS cur)].
Proof.
  unfold store_update. intros H.
  apply check_item_cons in H. destruct H as (v1 & it1 & E1 & H & ->).
  apply check_item_cons in H. destruct H as (v2 & it2 & E2 & H & ->).
  apply check_item_cons in H. destruct H as (v3 & it3 & E3 & H & ->).
  simpl in H. injection H as <-.
  apply attr_S_Ok in E1. destruct E1 as (s1 & E1 & ->). injection E1 as <-.
  apply attr_N_Ok in E2. subst v2.
  apply attr_S_Ok in E3. destruct E3 as (cur & E3 & ->).
  exists cur. split; [exact E3 | reflexivity].
Qed.

Lemma processedPayment_Ok pid ts payload w p w' :
  processedPayment pid ts payload w = (Ok p, w') ->
  exists provider amount currency status a,
    get payload "provider" = Ok provider /\
    get payload "amount" = Ok amount /\
    parseFloat (or_else amount (VNum pos_zero)) = Ok a /\
    get payload "currency" = Ok currency /\
    get payload "status" = Ok status /\
    p = {| paymentId := pid; timestamp := ts;
           provider := or_else provider (VStr "unknown");
           amount := a;
           currency := or_else currency (VStr "USD");
           status := or_else status (VStr "processed");
           processedAt := clock (host w) (clock_reads w) |} /\
    w' = set_clock_reads (S (clock_reads w)) w.
Proof.
  unfold processedPayment. intros H. inv_run.
  do 5 eexists. repeat split; eauto.
Qed.

Lemma process_Ok record w u w' :
  process record w = (Ok u, w') ->
  exists message pid ts payload p id n ts_text original cur,
    JSON_parse (body record) = Ok message /\
    get message "paymentId" = Ok pid /\
    get message "timestamp" = Ok ts /\
    get message "payload" = Ok payload /\
    processedPayment pid ts payload w
      = (Ok p, set_clock_reads (S (clock_reads w)) w) /\
    pid = VStr id /\
    toString_method ts = Ok ts_text /\
    ddb_number ts_text = Some n /\
    get payload "status" = Ok original /\
    currency p = VStr cur /\
    host w' = host w /\
    clock_reads w' = S (S (clock_reads w)) /\
    payment_table w' =
      update_item (id, n)
        [("paymentId", AttrS id); ("timestamp", AttrN ts_text)]
        [("status", AttrS "processed");
         ("processedAt",
          AttrN (number_to_string
                   (of_Z (clock (host w) (S (clock_reads w))))));
         ("currency", AttrS cur)]
        (payment_table w) /\
    event_bus w' =
      (event_bus w ++
       [{| Source := "payment.processor";
           DetailType := "Payment Processed";
           Detail := stringify_object (fields_of p) |}])%list /\
    notification_queue w' =
      (notification_queue w ++ notification_of p original)%list /\
    processing_queue w' = processing_queue w /\
    archive_bucket w' = archive_bucket w /\
    alert_topic w' = alert_topic w.
Proof.
  intros H. unfold process in H. apply try_rethrow_Ok in H.
  apply bind_Ok in H; destruct H as (message & ? & Hm & H).
  apply lift_Ok in Hm; destruct Hm as [Hm ->].
  apply bind_Ok in H; destruct H as (pid & ? & Hpid & H).
  apply lift_Ok in Hpid; destruct Hpid as [Hpid ->].
  apply bind_Ok in H; destruct H as (ts & ? & Hts & H).
  apply lift_Ok in Hts; destruct Hts as [Hts ->].
  apply bind_Ok in H; destruct H as (payload & ? & Hpl & H).
  apply lift_Ok in Hpl; destruct Hpl as [Hpl ->].
  apply bind_Ok in H; destruct H as (p & w1 & Hp & H).
  pose proof Hp as Hp'.
  apply processedPayment_Ok in Hp'.
  destruct Hp' as (pv & av & cv & sv & a & Hpv & Hav & Ha & Hcv & Hsv & Ep & ->).
  apply bind_Ok in H; destruct H as (ts_text & ? & Htt & H).
  apply lift_Ok in Htt; destruct Htt as [Htt ->].
  apply bind_Ok in H; destruct H as (now & ? & Hnow & H).
  apply Date_now_Ok in Hnow; destruct Hnow as [-> ->].
  apply bind_Ok in H; destruct H as (? & w2 & Hup & H).
  apply bind_Ok in H; destruct H as (? & w3 & Hev & H).
  apply bind_Ok in H; destruct H as (original & ? & Hor & H).
  apply lift_Ok in Hor; destruct Hor as [Hor ->].
  apply bind_Ok in H; destruct H as (? & w4 & Hnq & H).
  apply bind_Ok in H; destruct H as (id_text & ? & Hid & H).
  apply lift_Ok in Hid; destruct Hid as [Hid ->].
  apply console_log_Ok in H. subst w'.
  apply UpdateItem_Ok in Hup.
  destruct Hup as (id & n & ss & -> & Hne & Hn & Hss & _ & ->).
  apply store_update_Ok in Hss. destruct Hss as (cur & Hcur & ->).
  apply PutEvents_Ok in Hev. destruct Hev as [_ ->].
  assert (Hq : host w4 = host w /\ clock_reads w4 = S (S (clock_reads w))
               /\ payment_table w4 =
                  update_item (id, n)
                    [("paymentId", AttrS id); ("timestamp", AttrN ts_text)]
                    [("status", AttrS "processed");
                     ("processedAt",
                      AttrN (number_to_string
                               (of_Z (clock (host w) (S (clock_reads w))))));
                     ("currency", AttrS cur)]
                    (payment_table w)
               /\ event_bus w4 =
                  (event_bus w ++
                   [{| Source := "payment.processor";
                       DetailType := "Payment Processed";
                       Detail := stringify_object (fields_of p) |}])%list
               /\ notification_queue w4 =
                  (notification_queue w ++ notification_of p original)%list
               /\ processing_queue w4 = processing_queue w
               /\ archive_bucket w4 = archive_bucket w
               /\ alert_topic w4 = alert_topic w).
  { unfold notification_of.
    destruct (gt (amount p) (of_Z 10000) || strict_eq_string original "failed").
    - apply bind_Ok in Hnq; destruct Hnq as (? & w5 & Hs & Hnq).
      apply SendMessage_Ok in Hs. destruct Hs as [_ ->].
      apply bind_Ok in Hnq; destruct Hnq as (? & ? & Hi & Hnq).
      apply lift_Ok in Hi; destruct Hi as [_ ->].
      apply console_log_Ok in Hnq. subst w4. world_simpl.
      repeat split; reflexivity.
    - apply ret_Ok in Hnq. destruct Hnq as [_ ->]. world_simpl.
      rewrite app_nil_r. repeat split; reflexivity. }
  destruct Hq as (Q1 & Q2 & Q3 & Q4 & Q5 & Q6 & Q7 & Q8).
  exists message, (VStr id), ts, payload, p, id, n, ts_text, original, cur.
  world_simpl.
  repeat split; assumption.
Qed.


Lemma process_Throw record w e w' :
  process record w = (Throw e, w') ->
  notification_queue w' = notification_queue w /\
  processing_queue w' = processing_queue w /\
  archive_bucket w' = archive_bucket w /\
  alert_topic w' = alert_topic w.
Proof.
  intros H. unfold process in H. apply try_rethrow_Throw in H.
  destruct H as (w0 & H & ->). world_simpl.
  inv_fail; world_simpl;
    try (match goal with
         | K : make_key _ _ = Ok _, T : ToString _ = Throw _ |- _ =>
             apply make_key_Ok in K; destruct K as (? & ? & -> & _);
             discriminate T
         end);
    repeat split; reflexivity.
Qed.

Lemma strict_eq_string_iff v s : strict_eq_string v s = true <-> v = VStr s.
Proof.
  destruct v; simpl; try (split; [discriminate | discriminate]).
  rewrite String.eqb_eq. split; [intros ->; reflexivity | intros H; injection H; auto].
Qed.

Lemma or_else_truthy a b : truthy a = true -> or_else a b = a.
Proof. unfold or_else. intros ->. reflexivity. Qed.

Lemma or_else_falsy a b : truthy a = false -> or_else a b = b.
Proof. unfold or_else. intros ->. reflexivity. Qed.

(** The event is built whenever the payload is an object whose amount
    can be turned into a string. *)
Lemma processedPayment_total pid ts fields w text :
  to_string (or_else (lookup "amount" fields) (VNum pos_zero)) = Some text ->
  exists p,
    processedPayment pid ts (VObj fields) w
    = (Ok p, set_clock_reads (S (clock_reads w)) w)
    /\ amount p = parseFloat_string text.
Proof.
  intros Ht. unfold processedPayment.
  rewrite (bind_step _ _ w (lookup "provider" fields) w) by reflexivity.
  rewrite (bind_step _ _ w (lookup "amount" fields) w) by reflexivity.
  rewrite (bind_step _ _ w (parseFloat_string text) w)
    by (unfold parseFloat, ToString; rewrite Ht; reflexivity).
  rewrite (bind_step _ _ w (lookup "currency" fields) w) by reflexivity.
  rewrite (bind_step _ _ w (lookup "status" fields) w) by reflexivity.
  eexists. split; reflexivity.
Qed.

(** C1, as the code has it.  The normalized event takes each field of
    the payload when it is truthy and a default otherwise: [provider]
    defaults to unknown, [currency] to USD, [status] to processed (so a
    payload that carries a status, such as failed, keeps it: the
    constant processed is only what is written to the store), and
    [amount] is [parseFloat] of the payload's amount, 0 when the amount
    is absent or falsy, and the result of [parseFloat], be it NaN, when
    there is a text to read; [processedAt] is the reading of the clock
    taken when the event is built. *)
Theorem normalized_event_fields :
  forall (pid ts payload : value) (w : World) (p : ProcessedPayment) (w' : World),
    processedPayment pid ts payload w = (Ok p, w') ->
    exists provider0 amount0 currency0 status0,
      get payload "provider" = Ok provider0
      /\ get payload "amount" = Ok amount0
      /\ get payload "currency" = Ok currency0
      /\ get payload "status" = Ok status0
      /\ (truthy provider0 = false -> provider p = VStr "unknown")
      /\ (truthy provider0 = true -> provider p = provider0)
      /\ (truthy currency0 = false -> currency p = VStr "USD")
      /\ (truthy currency0 = true -> currency p = currency0)
      /\ (truthy amount0 = false -> amount p = pos_zero)
      /\ (truthy amount0 = true -> parseFloat amount0 = Ok (amount p))
      /\ (forall s, amount0 = VStr s -> s <> "" ->
          amount p = parseFloat_string s)
      /\ (truthy status0 = false -> status p = VStr "processed")
      /\ (truthy status0 = true -> status p = status0)
      /\ processedAt p = clock (host w) (clock_reads w).
Proof.
  intros pid ts payload w p w' H.
  apply processedPayment_Ok in H.
  destruct H as (pv & av & cv & sv & a & Hpv & Hav & Ha & Hcv & Hsv & -> & ->).
  exists pv, av, cv, sv. cbn [provider amount currency status processedAt].
  repeat split; auto.
  - apply or_else_falsy.
  - apply or_else_truthy.
  - apply or_else_falsy.
  - apply or_else_truthy.
  - intros F. rewrite (or_else_falsy _ _ F) in Ha.
    vm_compute in Ha. injection Ha as <-. reflexivity.
  - intros T. rewrite (or_else_truthy _ _ T) in Ha. exact Ha.
  - intros s -> Hs.
    assert (T : truthy (VStr s) = true).
    { simpl. apply negb_true_iff. apply String.eqb_neq. exact Hs. }
    rewrite (or_else_truthy _ _ T) in Ha.
    unfold parseFloat in Ha. simpl in Ha. injection Ha as <-. reflexivity.
  - apply or_else_falsy.
  - apply or_else_truthy.
Qed.

(** The bare payload: no provider, no currency, an amount that is not
    a number, a status. *)
Lemma normalized_event_fields_witness :
  processedPayment (VStr "pay_9") (VNum (of_Z 1730000000000)) Example.bare_payload
                   Example.world
    = (Ok Example.bare_event, set_clock_reads 1 Example.world)
  /\ provider Example.bare_event = VStr "unknown"
  /\ currency Example.bare_event = VStr "USD"
  /\ amount Example.bare_event = parseFloat_string "abc"
  /\ status Example.bare_event = VStr "failed"
  /\ processedAt Example.bare_event = 1730000000000.
Proof.
  assert (Hrun : processedPayment (VStr "pay_9") (VNum (of_Z 1730000000000))
                   Example.bare_payload Example.world
                 = (Ok Example.bare_event, set_clock_reads 1 Example.world))
    by reflexivity.
  split; [exact Hrun|].
  destruct (normalized_event_fields _ _ _ _ _ _ Hrun)
    as (pv & av & cv & sv & Hpv & Hav & Hcv & Hsv & P0 & _ & C0 & _ & _ & _
        & A & _ & S1 & T).
  injection Hpv as <-. injection Hav as <-. injection Hcv as <-.
  injection Hsv as <-.
  split; [apply P0; reflexivity|].
  split; [apply C0; reflexivity|].
  split; [apply (A "abc"); [reflexivity | discriminate]|].
  split; [apply S1; reflexivity | exact T].
Defined.

(** C1, as the spec has it, fails on the payload
    [{amount: "abc", status: "failed"}]: the normalized status is
    failed, not processed, and the normalized amount is NaN, not 0. *)
Lemma normalized_status_follows_payload :
  status Example.bare_event = VStr "failed"
  /\ status Example.bare_event <> VStr "processed"
  /\ amount Example.bare_event = NaN
  /\ amount Example.bare_event <> pos_zero
  /\ fst (processedPayment (VStr "pay_9") (VNum (of_Z 1730000000000))
            Example.bare_payload Example.world) = Ok Example.bare_event.
Proof.
  repeat split; try discriminate.
Qed.

(** C2.  Processing one queued item either raises, and then nothing
    was put on the notification queue, or completes, and then the
    normalized event was put on the notification queue exactly when its
    amount is greater than 10000 or the status of the original payload
    is the string failed; otherwise the queue is as it was. *)
Theorem notification_iff_high_value_or_failed :
  forall (record : SQSRecord) (w : World),
    match process record w with
    | (Throw _, w') => notification_queue w' = notification_queue w
    | (Ok _, w') =>
        exists message pid ts payload p original,
          JSON_parse (body record) = Ok message
          /\ get message "paymentId" = Ok pid
          /\ get message "timestamp" = Ok ts
          /\ get message "payload" = Ok payload
          /\ fst (processedPayment pid ts payload w) = Ok p
          /\ get payload "status" = Ok original
          /\ (gt (amount p) (of_Z 10000) = true \/ original = VStr "failed" ->
              notification_queue w' =
                (notification_queue w ++ [stringify_object (fields_of p)])%list)
          /\ (~ (gt (amount p) (of_Z 10000) = true \/ original = VStr "failed") ->
              notification_queue w' = notification_queue w)
    end.
Proof.
  intros record w.
  destruct (process record w) as [[u|e] w'] eqn:Hrun.
  - apply process_Ok in Hrun.
    destruct Hrun as (message & pid & ts & payload & p & id & n & ts_text
                      & original & cur & Hm & Hpid & Hts & Hpl & Hp & _ & _ & _
                      & Hor & _ & _ & _ & _ & _ & Hq & _).
    exists message, pid, ts, payload, p, original.
    rewrite Hp. repeat split; auto.
    + intros Hc. rewrite Hq. unfold notification_of.
      replace (gt (amount p) (of_Z 10000) || strict_eq_string original "failed")
        with true; [reflexivity|].
      symmetry. apply orb_true_iff.
      destruct Hc as [Hc | Hc]; [left; exact Hc | right].
      apply strict_eq_string_iff. exact Hc.
    + intros Hc. rewrite Hq. unfold notification_of.
      replace (gt (amount p) (of_Z 10000) || strict_eq_string original "failed")
        with false; [apply app_nil_r|].
      symmetry. apply not_true_is_false. intros Hb. apply Hc.
      apply orb_true_iff in Hb. destruct Hb as [Hb | Hb]; [left; exact Hb|right].
      apply strict_eq_string_iff. exact Hb.
  - apply process_Throw in Hrun. apply Hrun.
Qed.

(** The queued message of pay_1, of amount 15000, is forwarded. *)
Lemma notification_iff_high_value_or_failed_witness :
  let w := Example.received "pay_1" 15000 "succeeded" in
  fst (process Example.good_record w) = Ok tt
  /\ List.length (notification_queue (snd (process Example.good_record w))) = 1%nat.
Proof.
  intro w.
  pose proof (notification_iff_high_value_or_failed Example.good_record w) as H.
  assert (Hok : fst (process Example.good_record w) = Ok tt) by (vm_compute; reflexivity).
  split; [exact Hok|].
  destruct (process Example.good_record w) as [[u|e] w'] eqn:Hrun; [|discriminate Hok].
  destruct H as (message & pid & ts & payload & p & original & Hm & Hpid & Hts
                 & Hpl & Hp & Hor & Hyes & _).
  cbn [snd]. rewrite Hyes.
  - rewrite length_app. reflexivity.
  - left.
    assert (Em : JSON_parse (body Example.good_record)
                 = Ok (VObj [("paymentId", VStr "pay_1");
                             ("timestamp", VNum (of_Z 1730000000000));
                             ("payload", Example.payment "pay_1" 15000 "succeeded")]))
      by (vm_compute; reflexivity).
    rewrite Em in Hm. injection Hm as <-.
    injection Hpid as <-. injection Hts as <-. injection Hpl as <-.
    vm_compute in Hp. injection Hp as <-. vm_compute. reflexivity.
Defined.

Lemma item_set_set a v v' it : item_set a v (item_set a v' it) = item_set a v it.
Proof.
  induction it as [|[b u] it IH]; simpl.
  - rewrite String.eqb_refl. reflexivity.
  - destruct (String.eqb a b) eqn:E; simpl.
    + rewrite String.eqb_refl. reflexivity.
    + rewrite E, IH. reflexivity.
Qed.

Lemma has_attr_set a v it : has_attr a (item_set a v it) = true.
Proof.
  induction it as [|[b u] it IH]; simpl.
  - rewrite String.eqb_refl. reflexivity.
  - destruct (String.eqb a b) eqn:E; simpl.
    + rewrite String.eqb_refl. reflexivity.
    + rewrite E, IH. reflexivity.
Qed.

Lemma has_attr_set_other a b v it :
  has_attr a it = true -> has_attr a (item_set b v it) = true.
Proof.
  induction it as [|[c u] it IH]; simpl; [discriminate|].
  intros H. destruct (String.eqb b c) eqn:E; simpl.
  - apply String.eqb_eq in E. subst c. exact H.
  - apply orb_true_iff in H. apply orb_true_iff.
    destruct H as [H|H]; [left; exact H | right; apply IH; exact H].
Qed.

Lemma item_set_swap a b v u it :
  a <> b -> has_attr a it = true ->
  item_set a v (item_set b u it) = item_set b u (item_set a v it).
Proof.
  intros Hab.
  assert (Eab : String.eqb a b = false) by (apply String.eqb_neq; exact Hab).
  assert (Eba : String.eqb b a = false)
    by (apply String.eqb_neq; congruence).
  induction it as [|[c x] it IH]; simpl; [discriminate|].
  intros H.
  destruct (String.eqb b c) eqn:Ebc; destruct (String.eqb a c) eqn:Eac; simpl;
    rewrite ?Eab, ?Eba, ?Ebc, ?Eac.
  - apply String.eqb_eq in Ebc, Eac. congruence.
  - reflexivity.
  - reflexivity.
  - simpl in H. rewrite IH by exact H. reflexivity.
Qed.

Lemma item_get_set a v it : item_get a (item_set a v it) = Some v.
Proof.
  induction it as [|[b u] it IH]; simpl.
  - rewrite String.eqb_refl. reflexivity.
  - destruct (String.eqb a b) eqn:E; simpl.
    + rewrite String.eqb_refl. reflexivity.
    + rewrite E. exact IH.
Qed.

Lemma item_get_set_other a b v it :
  a <> b -> item_get a (item_set b v it) = item_get a it.
Proof.
  intros Hab. induction it as [|[c u] it IH]; simpl.
  - apply String.eqb_neq in Hab. rewrite Hab. reflexivity.
  - destruct (String.eqb b c) eqn:E; simpl.
    + apply String.eqb_eq in E. subst c.
      apply String.eqb_neq in Hab. rewrite Hab. reflexivity.
    + destruct (String.eqb a c); [reflexivity | exact IH].
Qed.

Lemma processed_attrs_overwrite t1 t2 cur it :
  item_set_all (processed_attrs t2 cur) (item_set_all (processed_attrs t1 cur) it)
  = item_set_all (processed_attrs t2 cur) it.
Proof.
  unfold processed_attrs. cbn [item_set_all].
  set (s1 := AttrS "processed"). set (c := AttrS cur).
  set (p1 := AttrN (number_to_string (of_Z t1))).
  set (p2 := AttrN (number_to_string (of_Z t2))).
  assert (Hsp : "status" <> "processedAt") by discriminate.
  assert (Hsc : "status" <> "currency") by discriminate.
  assert (Hpc : "processedAt" <> "currency") by discriminate.
  rewrite (item_set_swap "status" "currency" s1 c)
    by (auto; apply has_attr_set_other, has_attr_set).
  rewrite (item_set_swap "status" "processedAt" s1 p1)
    by (auto; apply has_attr_set).
  rewrite item_set_set.
  rewrite (item_set_swap "processedAt" "currency" p2 c)
    by (auto; apply has_attr_set).
  rewrite item_set_set, item_set_set. reflexivity.
Qed.

Lemma table_put_put k it it' t :
  table_put k it (table_put k it' t) = table_put k it t.
Proof.
  induction t as [|[k' x] t IH]; simpl.
  - rewrite key_eqb_refl. reflexivity.
  - destruct (key_eqb k k') eqn:E; simpl.
    + rewrite key_eqb_refl. reflexivity.
    + rewrite E, IH. reflexivity.
Qed.

Lemma update_item_overwrite k ka t1 t2 cur t :
  update_item k ka (processed_attrs t2 cur)
    (update_item k ka (processed_attrs t1 cur) t)
  = update_item k ka (processed_attrs t2 cur) t.
Proof.
  unfold update_item. rewrite table_get_put, table_put_put.
  rewrite processed_attrs_overwrite. reflexivity.
Qed.

Lemma processed_attrs_stored now cur it :
  let it' := item_set_all (processed_attrs now cur) it in
  item_get "status" it' = Some (AttrS "processed") /\
  item_get "processedAt" it' = Some (AttrN (number_to_string (of_Z now))) /\
  item_get "currency" it' = Some (AttrS cur).
Proof.
  unfold processed_attrs. cbn [item_set_all]. cbv zeta.
  repeat split.
  - rewrite !item_get_set_other by discriminate. apply item_get_set.
  - rewrite item_get_set_other by discriminate. apply item_get_set.
  - apply item_get_set.
Qed.

(** C7, as the code has it.  When the same queued item is processed
    twice, the table after the second run is the table the second
    store update alone makes of the original one: [status] is
    processed, [currency] is the normalized currency, and [processedAt]
    is the clock reading of the second run, which overwrites that of
    the first.  With equal readings the second run leaves the table as
    the first left it.  Nothing accumulates. *)
Theorem store_update_is_overwrite :
  forall (record : SQSRecord) (w : World) u1 w1 u2 w2,
    process record w = (Ok u1, w1) ->
    process record w1 = (Ok u2, w2) ->
    exists (k : Key) (key_attrs : Item) (cur : string) (item : Item),
      let t1 := clock (host w) (S (clock_reads w)) in
      let t2 := clock (host w) (S (S (S (clock_reads w)))) in
      payment_table w1
        = update_item k key_attrs (processed_attrs t1 cur) (payment_table w)
      /\ payment_table w2
        = update_item k key_attrs (processed_attrs t2 cur) (payment_table w1)
      /\ payment_table w2
        = update_item k key_attrs (processed_attrs t2 cur) (payment_table w)
      /\ table_get k (payment_table w2) = Some item
      /\ item_get "status" item = Some (AttrS "processed")
      /\ item_get "processedAt" item
         = Some (AttrN (number_to_string (of_Z t2)))
      /\ item_get "currency" item = Some (AttrS cur)
      /\ (t1 = t2 -> payment_table w2 = payment_table w1).
Proof.
  intros record w u1 w1 u2 w2 H1 H2.
  apply process_Ok in H1.
  destruct H1 as (message & pid & ts & payload & p & id & n & ts_text
                  & original & cur & Hm & Hpid & Hts & Hpl & Hp & -> & Htt & Hn
                  & Hor & Hcur & Hh & Hc & Ht & _).
  apply process_Ok in H2.
  destruct H2 as (message' & pid' & ts' & payload' & p' & id' & n' & ts_text'
                  & original' & cur' & Hm' & Hpid' & Hts' & Hpl' & Hp' & -> & Htt'
                  & Hn' & Hor' & Hcur' & Hh' & Hc' & Ht' & _).
  rewrite Hm in Hm'. injection Hm' as <-.
  rewrite Hpid in Hpid'. injection Hpid' as <-.
  rewrite Hts in Hts'. injection Hts' as <-.
  rewrite Hpl in Hpl'. injection Hpl' as <-.
  rewrite Htt in Htt'. injection Htt' as <-.
  rewrite Hn in Hn'. injection Hn' as <-.
  apply processedPayment_Ok in Hp, Hp'.
  destruct Hp as (pv & av & cv & sv & a & _ & _ & _ & Hcv & _ & -> & _).
  destruct Hp' as (pv' & av' & cv' & sv' & a' & _ & _ & _ & Hcv' & _ & -> & _).
  rewrite Hcv in Hcv'. injection Hcv' as <-.
  cbn [currency] in Hcur, Hcur'. rewrite Hcur in Hcur'. injection Hcur' as <-.
  rewrite Hh, Hc in Ht'.
  fold (processed_attrs (clock (host w) (S (clock_reads w))) cur) in Ht.
  fold (processed_attrs (clock (host w) (S (S (S (clock_reads w))))) cur) in Ht'.
  set (ka := [("paymentId", AttrS id); ("timestamp", AttrN ts_text)]) in *.
  exists (id, n), ka, cur.
  eexists. cbv zeta.
  split; [exact Ht|]. split; [exact Ht'|].
  assert (E : payment_table w2 =
              update_item (id, n) ka
                (processed_attrs (clock (host w) (S (S (S (clock_reads w))))) cur)
                (payment_table w)).
  { rewrite Ht', Ht. apply update_item_overwrite. }
  split; [exact E|].
  rewrite E. unfold update_item at 1. rewrite table_get_put.
  split; [reflexivity|].
  split; [apply processed_attrs_stored|].
  split; [apply processed_attrs_stored|].
  split; [apply processed_attrs_stored|].
  intros Et. rewrite Ht. rewrite Et. reflexivity.
Qed.

(** The message of pay_1 processed twice. *)
Lemma store_update_is_overwrite_witness :
  Example.stored_attr "pay_1" (173, 10) "status" Example.twice = Some (AttrS "processed")
  /\ Example.stored_attr "pay_1" (173, 10) "currency" Example.twice = Some (AttrS "USD")
  /\ payment_table Example.twice
     = update_item ("pay_1", (173, 10))
         [("paymentId", AttrS "pay_1"); ("timestamp", AttrN "1730000000000")]
         (processed_attrs 1730000000005 "USD")
         (payment_table (Example.received "pay_1" 15000 "succeeded")).
Proof.
  set (w := Example.received "pay_1" 15000 "succeeded").
  assert (H1 : process Example.good_record w = (Ok tt, Example.once)).
  { unfold Example.once. fold w. rewrite (pair_eta (process Example.good_record w)) at 1.
    f_equal; try (vm_compute; reflexivity). }
  assert (H2 : process Example.good_record Example.once = (Ok tt, Example.twice)).
  { unfold Example.twice. rewrite (pair_eta (process Example.good_record Example.once)) at 1.
    f_equal; try (vm_compute; reflexivity). }
  destruct (store_update_is_overwrite Example.good_record w tt Example.once tt Example.twice H1 H2)
    as (k & ka & cur & item & _ & _ & E & _).
  split; [vm_compute; reflexivity|].
  split; [vm_compute; reflexivity|].
  vm_compute. reflexivity.
Defined.

(** C7, as the spec has it, fails: the item of pay_1 is processed
    Example.twice; the stored [processedAt] is 1730000000003 after the first
    run and 1730000000005 after the second. *)
Lemma redelivery_moves_processedAt :
  fst (process Example.good_record (Example.received "pay_1" 15000 "succeeded")) = Ok tt
  /\ fst (process Example.good_record Example.once) = Ok tt
  /\ Example.stored_attr "pay_1" (173, 10) "processedAt" Example.once
     = Some (AttrN "1730000000003")
  /\ Example.stored_attr "pay_1" (173, 10) "processedAt" Example.twice
     = Some (AttrN "1730000000005")
  /\ Example.stored_attr "pay_1" (173, 10) "processedAt" Example.twice
     <> Example.stored_attr "pay_1" (173, 10) "processedAt" Example.once.
Proof.
  split; [vm_compute; reflexivity|].
  split; [vm_compute; reflexivity|].
  split; [vm_compute; reflexivity|].
  split; [vm_compute; reflexivity|].
  vm_compute. discriminate.
Qed.

End Processor.

(** ** Batches *)

Lemma for_each_app_fail step pre bad post w u w1 e w2 :
  for_each step pre w = (Ok u, w1) ->
  step bad w1 = (Throw e, w2) ->
  for_each step (pre ++ bad :: post) w = (Throw e, w2).
Proof.
  revert w u. induction pre as [|r pre IH]; intros w u Hpre Hbad.
  - apply ret_Ok in Hpre. destruct Hpre as [_ ->].
    simpl. unfold bind. rewrite Hbad. reflexivity.
  - simpl in Hpre. apply bind_Ok in Hpre.
    destruct Hpre as (u0 & w0 & Hr & Hpre).
    simpl. unfold bind at 1. rewrite Hr. eapply IH; eauto.
Qed.

(** C3, as the code has it.  Both consumers return nothing and rethrow
    what an item raises.  So when the items before [bad] complete and
    [bad] raises, the invocation as a whole fails with that exception,
    the items after [bad] are never looked at, and the queue takes back
    the whole batch: the failing item, the items already processed and
    the items not yet reached. *)
Theorem failing_item_fails_whole_batch :
  forall (pre : list SQSRecord) (bad : SQSRecord) (post : list SQSRecord)
         (w w1 w2 : World) (e : exn),
    (EventProcessor.handler pre w = (Ok tt, w1) ->
     EventProcessor.process bad w1 = (Throw e, w2) ->
     EventProcessor.handler (pre ++ bad :: post) w = (Throw e, w2)
     /\ redelivered (pre ++ bad :: post)
          (fst (EventProcessor.handler (pre ++ bad :: post) w))
        = pre ++ bad :: post)%list
    /\
    (NotificationHandler.handler pre w = (Ok tt, w1) ->
     NotificationHandler.notify bad w1 = (Throw e, w2) ->
     NotificationHandler.handler (pre ++ bad :: post) w = (Throw e, w2)
     /\ redelivered (pre ++ bad :: post)
          (fst (NotificationHandler.handler (pre ++ bad :: post) w))
        = pre ++ bad :: post)%list.
Proof.
  intros pre bad post w w1 w2 e. split; intros Hpre Hbad.
  - assert (H : EventProcessor.handler (pre ++ bad :: post) w = (Throw e, w2))
      by (eapply for_each_app_fail; eauto).
    rewrite H. split; reflexivity.
  - assert (H : NotificationHandler.handler (pre ++ bad :: post) w = (Throw e, w2))
      by (eapply for_each_app_fail; eauto).
    rewrite H. split; reflexivity.
Qed.

(** The message of pay_1 followed by one that is not JSON. *)
Lemma failing_item_fails_whole_batch_witness :
  let w := Example.received "pay_1" 15000 "succeeded" in
  fst (EventProcessor.process Example.good_record w) = Ok tt
  /\ fst (EventProcessor.handler ([Example.good_record] ++ Example.bad_record :: []) w)
     = Throw SyntaxError
  /\ redelivered ([Example.good_record] ++ Example.bad_record :: [])
       (fst (EventProcessor.handler ([Example.good_record] ++ Example.bad_record :: []) w))
     = [Example.good_record; Example.bad_record].
Proof.
  intro w.
  assert (H1 : EventProcessor.handler [Example.good_record] w
               = (Ok tt, snd (EventProcessor.handler [Example.good_record] w))).
  { rewrite (pair_eta (EventProcessor.handler [Example.good_record] w)) at 1.
    f_equal; try (vm_compute; reflexivity). }
  assert (H2 : EventProcessor.process Example.bad_record
                 (snd (EventProcessor.handler [Example.good_record] w))
               = (Throw SyntaxError,
                  snd (EventProcessor.process Example.bad_record
                         (snd (EventProcessor.handler [Example.good_record] w))))).
  { rewrite (pair_eta (EventProcessor.process Example.bad_record _)) at 1.
    f_equal. }
  destruct (failing_item_fails_whole_batch [Example.good_record] Example.bad_record [] w
              (snd (EventProcessor.handler [Example.good_record] w))
              (snd (EventProcessor.process Example.bad_record
                      (snd (EventProcessor.handler [Example.good_record] w))))
              SyntaxError) as [H _].
  destruct (H H1 H2) as [Hrun Hre].
  split; [vm_compute; reflexivity|].
  split; [rewrite Hrun; reflexivity | exact Hre].
Defined.

(** C3, as the spec has it, fails on the batch of the message of pay_1
    followed by a message that is not JSON: the first item is processed
    to the end, the second raises, and the first is redelivered with
    it. *)
Lemma processed_item_is_redelivered :
  let w := Example.received "pay_1" 15000 "succeeded" in
  let batch := [Example.good_record; Example.bad_record] in
  fst (EventProcessor.process Example.good_record w) = Ok tt
  /\ fst (EventProcessor.handler batch w) = Throw SyntaxError
  /\ In Example.good_record
        (redelivered batch (fst (EventProcessor.handler batch w))).
Proof.
  split; [vm_compute; reflexivity|].
  split; [vm_compute; reflexivity|].
  replace (fst (EventProcessor.handler
                  [Example.good_record; Example.bad_record]
                  (Example.received "pay_1" 15000 "succeeded")))
    with (@Throw unit SyntaxError) by (vm_compute; reflexivity).
  left. reflexivity.
Qed.

(** ** The notifier *)

Section Notifier.
Import NotificationHandler.

Lemma Publish_Ok subject0 message0 w u w' :
  Publish subject0 message0 w = (Ok u, w') ->
  outage (host w) (calls w) = false /\
  w' = set_alert_topic
         (alert_topic w ++ [{| Subject := subject0; Message := message0 |}])
         (set_calls (S (calls w)) w).
Proof. unfold Publish. intros H. inv_run. auto. Qed.

Lemma GetItem_Ok pid ts_text w it w' :
  GetItem pid ts_text w = (Ok it, w') ->
  exists k, make_key pid ts_text = Ok k /\
            it = table_get k (payment_table w) /\
            w' = set_calls (S (calls w)) w.
Proof.
  unfold GetItem. intros H. inv_run.
  match goal with H : _ = (Ok it, w') |- _ => injection H as <- <- end.
  eexists. repeat split; eauto.
Qed.

Lemma Date_toISOString_Ok v w s w' :
  Date_toISOString v w = (Ok s, w') -> w' = w.
Proof.
  unfold Date_toISOString.
  destruct (time_value (Date_parse (host w)) v) as [[t|]|e]; intros H;
    try discriminate.
  injection H as _ <-. reflexivity.
Qed.

Lemma Date_toISOString_Throw v w e w' :
  Date_toISOString v w = (Throw e, w') -> w' = w.
Proof.
  unfold Date_toISOString.
  destruct (time_value (Date_parse (host w)) v) as [[t|]|e0]; intros H;
    try discriminate; injection H as _ <-; reflexivity.
Qed.

Lemma notify_Ok record w u w' :
  notify record w = (Ok u, w') ->
  exists payment pid ts ts_text k,
    JSON_parse (body record) = Ok payment
    /\ get payment "paymentId" = Ok pid
    /\ get payment "timestamp" = Ok ts
    /\ toString_method ts = Ok ts_text
    /\ make_key pid ts_text = Ok k
    /\ outage (host w) (calls w) = false
    /\ ((table_get k (payment_table w) = None
         /\ alert_topic w' = alert_topic w)
        \/ exists amount0 a status0,
             table_get k (payment_table w) <> None
             /\ get payment "amount" = Ok amount0
             /\ parseFloat (or_else amount0 (VNum pos_zero)) = Ok a
             /\ get payment "status" = Ok status0
             /\ let failed :=
                  strict_eq_string (or_else status0 (VStr "unknown")) "failed" in
                if gt a (of_Z 10000) || failed
                then exists id prov cur st when,
                       alert_topic w' =
                       (alert_topic w ++
                        [{| Subject := subject failed a;
                            Message := message failed a id prov cur st when |}])%list
                else alert_topic w' = alert_topic w).
Proof.
  intros H. unfold notify in H. apply try_rethrow_Ok in H.
  apply bind_Ok in H; destruct H as (payment & ? & Hp & H).
  apply lift_Ok in Hp; destruct Hp as [Hp ->].
  apply bind_Ok in H; destruct H as (pid & ? & Hpid & H).
  apply lift_Ok in Hpid; destruct Hpid as [Hpid ->].
  apply bind_Ok in H; destruct H as (ts & ? & Hts & H).
  apply lift_Ok in Hts; destruct Hts as [Hts ->].
  apply bind_Ok in H; destruct H as (ts_text & ? & Htt & H).
  apply lift_Ok in Htt; destruct Htt as [Htt ->].
  apply bind_Ok in H; destruct H as (item & w1 & Hg & H).
  pose proof Hg as Hout. unfold GetItem in Hout. apply send_Ok in Hout.
  destruct Hout as [Hout _].
  apply GetItem_Ok in Hg. destruct Hg as (k & Hk & -> & ->).
  exists payment, pid, ts, ts_text, k. repeat (split; [assumption|]).
  destruct (table_get k (payment_table w)) as [it|] eqn:Hget.
  - right.
    apply bind_Ok in H; destruct H as (amount0 & ? & Ha0 & H).
    apply lift_Ok in Ha0; destruct Ha0 as [Ha0 ->].
    apply bind_Ok in H; destruct H as (a & ? & Ha & H).
    apply lift_Ok in Ha; destruct Ha as [Ha ->].
    apply bind_Ok in H; destruct H as (prov0 & ? & Hpr & H).
    apply lift_Ok in Hpr; destruct Hpr as [Hpr ->].
    apply bind_Ok in H; destruct H as (status0 & ? & Hst & H).
    apply lift_Ok in Hst; destruct Hst as [Hst ->].
    exists amount0, a, status0.
    split; [discriminate|]. repeat (split; [assumption|]).
    cbv zeta in *.
    destruct (gt a (of_Z 10000)
              || strict_eq_string (or_else status0 (VStr "unknown")) "failed").
    + apply bind_Ok in H; destruct H as (id & ? & Hid & H).
      apply lift_Ok in Hid; destruct Hid as [Hid ->].
      apply bind_Ok in H; destruct H as (prov & ? & Hprov & H).
      apply lift_Ok in Hprov; destruct Hprov as [Hprov ->].
      apply bind_Ok in H; destruct H as (cur0 & ? & Hc0 & H).
      apply lift_Ok in Hc0; destruct Hc0 as [Hc0 ->].
      apply bind_Ok in H; destruct H as (cur & ? & Hc & H).
      apply lift_Ok in Hc; destruct Hc as [Hc ->].
      apply bind_Ok in H; destruct H as (st & ? & Hs & H).
      apply lift_Ok in Hs; destruct Hs as [Hs ->].
      apply bind_Ok in H; destruct H as (pa & ? & Hpa & H).
      apply lift_Ok in Hpa; destruct Hpa as [Hpa ->].
      apply bind_Ok in H; destruct H as (when & ? & Hw & H).
      apply Date_toISOString_Ok in Hw. subst.
      apply bind_Ok in H; destruct H as (? & w2 & Hpub & H).
      apply Publish_Ok in Hpub. destruct Hpub as [_ ->].
      apply console_log_Ok in H. subst w'.
      exists id, prov, cur, st, when. reflexivity.
    + apply ret_Ok in H. destruct H as [_ ->]. reflexivity.
  - left. split; [reflexivity|].
    apply bind_Ok in H; destruct H as (id & ? & Hid & H).
    apply lift_Ok in Hid; destruct Hid as [Hid ->].
    unfold console_warn in H. apply modify_Ok in H. subst w'. reflexivity.
Qed.

Ltac inv_more :=
  repeat first
    [ progress inv_fail
    | match goal with
      | H : (Ok _, _) = (Throw _, _) |- _ => discriminate H
      | H : (Ok _, _) = (Ok _, _) |- _ => injection H as ? ?; subst
      | H : Date_toISOString _ _ = (Throw _, _) |- _ =>
          apply Date_toISOString_Throw in H; subst
      | H : Date_toISOString _ _ = (Ok _, _) |- _ =>
          apply Date_toISOString_Ok in H; subst
      | H : (match ?x with Some _ => _ | None => _ end) _ = (_, _) |- _ =>
          destruct x
      end ].

Lemma notify_Throw record w e w' :
  notify record w = (Throw e, w') ->
  alert_topic w' = alert_topic w /\
  payment_table w' = payment_table w.
Proof.
  intros H. unfold notify in H. apply try_rethrow_Throw in H.
  destruct H as (w0 & H & ->). world_simpl.
  inv_more; world_simpl;
    try (match goal with
         | K : make_key _ _ = Ok _, T : ToString _ = Throw _ |- _ =>
             apply make_key_Ok in K; destruct K as (? & ? & -> & _);
             discriminate T
         end);
    split; reflexivity.
Qed.

(** C8.  Take a notification message that parses, whose [paymentId]
    and [timestamp] make a key, and a store that holds nothing under
    that key and answers the lookup.  Then the notifier logs the
    warning [Payment <id> not found in DynamoDB] and goes on: no alert
    is published, no exception is raised, and a batch made of this
    message alone is not redelivered. *)
Theorem missing_record_is_skipped :
  forall (record : SQSRecord) (w : World) (payment pid ts : value)
         (ts_text : string) (k : Key),
    JSON_parse (body record) = Ok payment ->
    get payment "paymentId" = Ok pid ->
    get payment "timestamp" = Ok ts ->
    toString_method ts = Ok ts_text ->
    make_key pid ts_text = Ok k ->
    table_get k (payment_table w) = None ->
    outage (host w) (calls w) = false ->
    let w' := set_console
                (console w ++
                 [Warn ("Payment " ++ fst k ++ " not found in DynamoDB")])
                (set_calls (S (calls w)) w) in
    notify record w = (Ok tt, w')
    /\ alert_topic w' = alert_topic w
    /\ handler [record] w = (Ok tt, w')
    /\ redelivered [record] (fst (handler [record] w)) = [].
Proof.
  intros record w payment pid ts ts_text k Hp Hpid Hts Htt Hk Hget Hup w'.
  assert (Hrun : notify record w = (Ok tt, w')).
  { unfold notify, try_catch.
    rewrite (bind_step _ _ w payment w) by (rewrite Hp; reflexivity).
    rewrite (bind_step _ _ w pid w) by (rewrite Hpid; reflexivity).
    rewrite (bind_step _ _ w ts w) by (rewrite Hts; reflexivity).
    rewrite (bind_step _ _ w ts_text w) by (rewrite Htt; reflexivity).
    rewrite (bind_step _ _ w None (set_calls (S (calls w)) w)).
    2:{ unfold GetItem, send. rewrite Hup.
        rewrite (bind_step _ _ _ k (set_calls (S (calls w)) w))
          by (rewrite Hk; reflexivity).
        cbn [payment_table set_calls]. rewrite Hget. reflexivity. }
    apply make_key_Ok in Hk. destruct Hk as (s & n & -> & _ & _ & ->).
    reflexivity. }
  assert (Hh : handler [record] w = (Ok tt, w')).
  { unfold handler. simpl. unfold bind. rewrite Hrun. reflexivity. }
  split; [exact Hrun|]. split; [reflexivity|]. split; [exact Hh|].
  rewrite Hh. reflexivity.
Qed.

(** A notification for pay_404 against an empty store. *)
Lemma missing_record_is_skipped_witness :
  fst (notify Example.orphan_record Example.world) = Ok tt
  /\ alert_topic (snd (notify Example.orphan_record Example.world)) = []
  /\ console (snd (notify Example.orphan_record Example.world))
     = [Warn "Payment pay_404 not found in DynamoDB"]
  /\ redelivered [Example.orphan_record] (fst (handler [Example.orphan_record] Example.world))
     = [].
Proof.
  assert (Hp : JSON_parse (body Example.orphan_record)
               = Ok (VObj [("paymentId", VStr "pay_404");
                           ("timestamp", VNum (of_Z 1730000000000));
                           ("amount", VNum (of_Z 20000));
                           ("status", VStr "failed")]))
    by (vm_compute; reflexivity).
  assert (Hk : make_key (VStr "pay_404") "1730000000000"
               = Ok ("pay_404", (173, 10))) by (vm_compute; reflexivity).
  assert (Ht : toString_method (VNum (of_Z 1730000000000))
               = Ok "1730000000000") by (vm_compute; reflexivity).
  destruct (missing_record_is_skipped Example.orphan_record Example.world _
              (VStr "pay_404") (VNum (of_Z 1730000000000)) "1730000000000"
              ("pay_404", (173, 10)) Hp eq_refl eq_refl Ht Hk eq_refl eq_refl)
    as (Hrun & Halert & _ & Hre).
  rewrite Hrun.
  split; [reflexivity|]. split; [exact Halert|].
  split; [reflexivity | exact Hre].
Defined.

(** C5, as the code has it.  Whenever the notifier publishes an alert,
    its subject is the fixed text for a failed or a high-value payment
    followed by the amount as JavaScript prints a number:
    [URGENT: Failed Payment Alert - $50] for a failed payment of 50 and
    [High-Value Payment Alert: $15000] for a payment of 15000.  The
    two-decimal form, [50.00] and [15000.00], is the one of the Amount
    line of the message body ([toFixed(2)]), not of the subject. *)
Theorem alert_subject_uses_default_number_format :
  forall (record : SQSRecord) (w : World),
    match notify record w with
    | (Throw _, w') => alert_topic w' = alert_topic w
    | (Ok _, w') =>
        alert_topic w' = alert_topic w
        \/ exists payment amount0 status0 amount id prov cur st when,
             JSON_parse (body record) = Ok payment
             /\ get payment "amount" = Ok amount0
             /\ parseFloat (or_else amount0 (VNum pos_zero)) = Ok amount
             /\ get payment "status" = Ok status0
             /\ alert_topic w' =
                (alert_topic w ++
                 [{| Subject :=
                       (if strict_eq_string
                             (or_else status0 (VStr "unknown")) "failed"
                        then "URGENT: Failed Payment Alert - $"
                        else "High-Value Payment Alert: $")
                       ++ number_to_string amount;
                     Message :=
                       message
                         (strict_eq_string
                            (or_else status0 (VStr "unknown")) "failed")
                         amount id prov cur st when |}])%list
    end
    /\ subject true (of_Z 50) = "URGENT: Failed Payment Alert - $50"
    /\ subject false (of_Z 15000) = "High-Value Payment Alert: $15000"
    /\ toFixed (of_Z 50) 2 = "50.00"
    /\ toFixed (of_Z 15000) 2 = "15000.00".
Proof.
  intros record w. split.
  - destruct (notify record w) as [[u|e] w'] eqn:Hrun.
    + apply notify_Ok in Hrun.
      destruct Hrun as (payment & pid & ts & ts_text & k & Hp & _ & _ & _ & _
                        & _ & [[_ Hsame] | Hfound]).
      * left. exact Hsame.
      * destruct Hfound as (amount0 & a & status0 & _ & Ha0 & Ha & Hs & Hsend).
        cbv zeta in Hsend.
        destruct (gt a (of_Z 10000)
                  || strict_eq_string (or_else status0 (VStr "unknown"))
                       "failed").
        -- right. destruct Hsend as (id & prov & cur & st & when & Hsend).
           exists payment, amount0, status0, a, id, prov, cur, st, when.
           repeat (split; [eassumption|]).
           rewrite Hsend. unfold subject.
           destruct (strict_eq_string (or_else status0 (VStr "unknown"))
                       "failed"); reflexivity.
        -- left. exact Hsend.
    + apply notify_Throw in Hrun. apply Hrun.
  - repeat split; vm_compute; reflexivity.
Qed.

(** C5, as the spec has it, fails on both scenarios: the subjects
    sent carry 50 and 15000, not 50.00 and 15000.00. *)
Lemma subject_has_no_decimals :
  Example.subjects_sent Example.failed_50 = ["URGENT: Failed Payment Alert - $50"]
  /\ "URGENT: Failed Payment Alert - $50"
     <> "URGENT: Failed Payment Alert - $50.00"
  /\ Example.subjects_sent Example.high_15000 = ["High-Value Payment Alert: $15000"]
  /\ "High-Value Payment Alert: $15000"
     <> "High-Value Payment Alert: $15000.00".
Proof.
  split; [vm_compute; reflexivity|].
  split; [discriminate|].
  split; [vm_compute; reflexivity | discriminate].
Qed.

End Notifier.

(** ** The routing rules *)

Section Rules.
Import EventBridge.

Lemma SFcompare_antisym x y :
  SFcompare x y = option_map CompOpp (SFcompare y x).
Proof.
  destruct x as [sx|sx| |sx mx ex], y as [sy|sy| |sy my ey]; simpl;
    try reflexivity;
    try (destruct sx; reflexivity);
    try (destruct sy; reflexivity);
    try (destruct sx, sy; reflexivity).
  assert (Hm : Pos.compare_cont Eq mx my
               = CompOpp (Pos.compare_cont Eq my mx)).
  { rewrite (Pos.compare_cont_antisym my mx Eq). reflexivity. }
  rewrite (Z.compare_antisym ey ex), Hm.
  destruct sx, sy; simpl; try reflexivity;
    destruct (ey ?= ex); simpl; try reflexivity;
    rewrite ?CompOpp_involutive; reflexivity.
Qed.

Lemma gt_is_not_le x bound :
  is_nan x = false -> is_nan bound = false ->
  gt x bound = negb (le x bound).
Proof.
  unfold gt, le, SFltb, SFleb. rewrite (SFcompare_antisym bound x).
  destruct (SFcompare x bound) as [[]|] eqn:E; simpl; try reflexivity.
  destruct x, bound; simpl in *; try discriminate;
    repeat match goal with b : bool |- _ => destruct b end; discriminate.
Qed.

Lemma ge_zero_not_nan x : ge x (of_Z 0) = true -> is_nan x = false.
Proof. destruct x; simpl; [reflexivity | reflexivity | discriminate | reflexivity]. Qed.

(** C6.  On a Payment Processed event of the processor whose amount
    is a number not below 0, the high-value rule matches exactly when
    the amount is greater than 10000 and the standard rule exactly when
    it is at most 10000, so exactly one of the two matches; the amount
    10000 matches the standard rule only and 10000.01 the high-value
    rule only. *)
Theorem rules_partition_amounts :
  forall (environmentSuffix : string) (e : BusEntry) (a : number),
    Source e = "payment.processor" ->
    DetailType e = "Payment Processed" ->
    amount_of e = Some a ->
    ge a (of_Z 0) = true ->
    let high := matches (HighValuePaymentRule environmentSuffix) e in
    let standard := matches (StandardPaymentRule environmentSuffix) e in
    high = gt a (of_Z 10000)
    /\ standard = le a (of_Z 10000)
    /\ xorb high standard = true
    /\ (let e0 := Example.processed_event (of_Z 10000) in
        matches (HighValuePaymentRule environmentSuffix) e0 = false
        /\ matches (StandardPaymentRule environmentSuffix) e0 = true)
    /\ (let e1 := Example.processed_event (of_decimal false 1000001 (-2)) in
        matches (HighValuePaymentRule environmentSuffix) e1 = true
        /\ matches (StandardPaymentRule environmentSuffix) e1 = false).
Proof.
  intros sfx e a Hs Hd Ha Hge high standard.
  assert (Hh : high = gt a (of_Z 10000)).
  { subst high. unfold matches. cbn [source detailType detail_amount HighValuePaymentRule].
    rewrite Hs, Hd, Ha. cbn [existsb]. rewrite !String.eqb_refl.
    cbn [fst snd numeric orb andb]. rewrite orb_false_r. reflexivity. }
  assert (Hst : standard = le a (of_Z 10000)).
  { subst standard. unfold matches. cbn [source detailType detail_amount StandardPaymentRule].
    rewrite Hs, Hd, Ha. cbn [existsb]. rewrite !String.eqb_refl.
    cbn [fst snd numeric orb andb]. rewrite orb_false_r. reflexivity. }
  split; [exact Hh|]. split; [exact Hst|].
  split.
  - rewrite Hh, Hst. rewrite gt_is_not_le.
    + destruct (le a (of_Z 10000)); reflexivity.
    + apply ge_zero_not_nan. exact Hge.
    + reflexivity.
  - split; split; vm_compute; reflexivity.
Qed.

(** The event of a payment of 15000. *)
Lemma rules_partition_amounts_witness :
  let e := Example.processed_event (of_Z 15000) in
  matches (HighValuePaymentRule "dev") e = true
  /\ matches (StandardPaymentRule "dev") e = false.
Proof.
  intro e.
  assert (Ha : amount_of e = Some (of_Z 15000)) by (vm_compute; reflexivity).
  assert (Hge : ge (of_Z 15000) (of_Z 0) = true) by (vm_compute; reflexivity).
  destruct (rules_partition_amounts "dev" e (of_Z 15000) eq_refl eq_refl
              Ha Hge) as (Hh & Hs & _).
  split.
  - rewrite Hh. vm_compute. reflexivity.
  - rewrite Hs. vm_compute. reflexivity.
Defined.

End Rules.

(* ================================================================== *)
(** * Part VI.  Further properties of the handlers                    *)
(* ================================================================== *)

(** ** Tables, items and batches *)

Lemma run_eq {A} (x : result A * World) (r : result A) :
  fst x = r -> x = (r, snd x).
Proof. intros <-. apply pair_eta. Qed.

Lemma key_eqb_eq a b : key_eqb a b = true <-> a = b.
Proof.
  destruct a as [s [m e]], b as [s' [m' e']]. unfold key_eqb. simpl.
  rewrite !andb_true_iff, String.eqb_eq, !Z.eqb_eq.
  split; [intros [[-> ->] ->]; reflexivity | intros H; injection H; auto].
Qed.

Lemma table_get_put_other k k' it t :
  key_eqb k' k = false -> table_get k' (table_put k it t) = table_get k' t.
Proof.
  intros Hk. induction t as [|[k0 it0] t IH]; simpl.
  - rewrite Hk. reflexivity.
  - destruct (key_eqb k k0) eqn:E; simpl.
    + apply key_eqb_eq in E. subst k0. rewrite Hk. reflexivity.
    + destruct (key_eqb k' k0); [reflexivity | exact IH].
Qed.

Lemma item_get_set_all_other a sets it :
  (forall b v, In (b, v) sets -> a <> b) ->
  item_get a (item_set_all sets it) = item_get a it.
Proof.
  revert it. induction sets as [|[b v] sets IH]; intros it H; simpl.
  - reflexivity.
  - rewrite IH by (intros b' v' Hin; apply (H b' v'); right; exact Hin).
    apply item_get_set_other. apply (H b v). left. reflexivity.
Qed.


Lemma for_each_frame {A} (proj : World -> A) step :
  (forall r w, proj (snd (step r w)) = proj w) ->
  forall records w, proj (snd (for_each step records w)) = proj w.
Proof.
  intros Hstep records. induction records as [|r rs IH]; intros w; simpl.
  - reflexivity.
  - unfold bind. specialize (Hstep r w).
    destruct (step r w) as [[u|e] w1]; simpl in *.
    + rewrite IH. exact Hstep.
    + exact Hstep.
Qed.


(** ** The receiver, continued *)

Section ReceiverFurther.
Import WebhookReceiver.

(** The receiver's body, without its catch-all. *)
Lemma handler_Ok_cases event w r w' :
  handler event w = (Ok r, w') ->
  statusCode r = 200 \/ statusCode r = 400 \/ statusCode r = 500.
Proof.
  unfold handler, try_catch.
  match goal with
  | |- context [match ?b w with _ => _ end] =>
      destruct (b w) as [[r0|e] w0] eqn:Hbody
  end.
  - intros H. injection H as <- <-.
    destruct (String.eqb (path event) "/health"
              || String.eqb (httpMethod event) "GET").
    + inv_run. unfold respond in Hbody. apply ret_Ok in Hbody.
      destruct Hbody as [-> _]. left. reflexivity.
    + destruct (event_body event) as [[|c text]|].
      * unfold respond in Hbody. apply ret_Ok in Hbody.
        destruct Hbody as [-> _]. right. left. reflexivity.
      * unfold validateSignature in Hbody. cbn [negb] in Hbody.
        apply bind_Ok in Hbody. destruct Hbody as (payload & ? & _ & Hbody).
        apply bind_Ok in Hbody. destruct Hbody as (supplied & ? & _ & Hbody).
        apply bind_Ok in Hbody. destruct Hbody as (pid & ? & _ & Hbody).
        inv_run. unfold respond in Hbody. apply ret_Ok in Hbody.
        destruct Hbody as [-> _]. left. reflexivity.
      * unfold respond in Hbody. apply ret_Ok in Hbody.
        destruct Hbody as [-> _]. right. left. reflexivity.
  - unfold bind, console_error, modify, error_message, respond, ret.
    intros H. injection H as <- <-. right. right. reflexivity.
Qed.

(** X1.  Whatever the request and the state of the services, the
    receiver returns a response and never raises; its status is 200,
    400 or 500, never the 401 of a refused signature; and the headers
    of the request, the signature among them, do not change the run. *)
Theorem receiver_always_answers :
  forall (event : APIGatewayProxyEvent) (w : World),
    (exists r w',
       handler event w = (Ok r, w')
       /\ (statusCode r = 200 \/ statusCode r = 400 \/ statusCode r = 500))
    /\ forall hs, handler (Scenario.with_headers hs event) w = handler event w.
Proof.
  intros event w. split.
  - destruct (handler event w) as [[r|e] w'] eqn:H.
    + exists r, w'. split; [reflexivity|]. eapply handler_Ok_cases; eauto.
    + exfalso. unfold handler, try_catch in H.
      match type of H with
      | context [match ?b w with _ => _ end] => destruct (b w) as [[r0|e0] w0]
      end; [discriminate|].
      unfold bind, console_error, modify, error_message, respond, ret in H.
      discriminate.
  - intros hs. reflexivity.
Qed.




Lemma receiver_accepts event w r w' :
  path event <> "/health" -> httpMethod event <> "GET" ->
  handler event w = (Ok r, w') -> statusCode r = 200 ->
  exists text payload supplied pid n provider0 prov amount0 amount_text amt raw,
    event_body event = Some text
    /\ JSON_parse text = Ok payload
    /\ get payload "paymentId" = Ok supplied
    /\ VStr pid = (if truthy supplied then supplied
                   else VStr (uuid (host w) (uuids_drawn w)))
    /\ uuids_drawn w' = (if truthy supplied then uuids_drawn w
                         else S (uuids_drawn w))
    /\ get payload "provider" = Ok provider0
    /\ or_else provider0 (VStr "unknown") = VStr prov
    /\ get payload "amount" = Ok amount0
    /\ optional_toString amount0 = Ok amount_text
    /\ or_else amount_text (VStr "0") = VStr amt
    /\ JSON_stringify payload = Some raw
    /\ ddb_number (number_to_string (of_Z (clock (host w) (clock_reads w))))
       = Some n
    /\ payment_table w' =
       table_put (pid, n)
         [("paymentId", AttrS pid);
          ("timestamp",
           AttrN (number_to_string (of_Z (clock (host w) (clock_reads w)))));
          ("provider", AttrS prov);
          ("amount", AttrN amt);
          ("status", AttrS "received");
          ("rawPayload", AttrS raw)]
         (payment_table w)
    /\ archive_bucket w' =
       (archive_bucket w ++
        [{| s3_Key :=
              "webhooks/" ++
              before "T"
                (toISOString (clock (host w) (S (clock_reads w)))) ++
              "/" ++ pid ++ ".json";
            s3_Body := JSON_stringify_2 payload;
            s3_ContentType := "application/json" |}])%list
    /\ processing_queue w' =
       (processing_queue w ++
        [stringify_object
           [("paymentId", VStr pid);
            ("timestamp", VNum (of_Z (clock (host w) (clock_reads w))));
            ("payload", payload)]])%list
    /\ r = {| statusCode := 200;
              result_body :=
                stringify_object
                  [("message", VStr "Webhook received");
                   ("paymentId", VStr pid);
                   ("timestamp",
                    VNum (of_Z (clock (host w) (clock_reads w))))] |}.
Proof.
  intros Hpath Hmethod Hrun H200.
  assert (Hcond : String.eqb (path event) "/health"
                  || String.eqb (httpMethod event) "GET" = false).
  { apply orb_false_iff; split; apply String.eqb_neq; assumption. }
  unfold handler in Hrun. rewrite Hcond in Hrun.
  unfold try_catch in Hrun.
  match type of Hrun with
  | context [match ?b w with _ => _ end] =>
      destruct (b w) as [[r0|e] w0] eqn:Hbody
  end.
  2:{ unfold bind, console_error, modify, error_message, respond, ret in Hrun.
      inversion Hrun; subst. simpl in H200. discriminate. }
  inversion Hrun; subst; clear Hrun.
  destruct (event_body event) as [[|c text]|] eqn:Hb.
  1,3: unfold respond, ret in Hbody; inversion Hbody; subst;
       simpl in H200; discriminate.
  unfold validateSignature in Hbody. cbn [negb] in Hbody.
  apply bind_Ok in Hbody; destruct Hbody as (payload & w1 & Hparse & Hbody).
  apply lift_Ok in Hparse; destruct Hparse as [Hparse ->].
  apply bind_Ok in Hbody; destruct Hbody as (supplied & w1 & Hsup & Hbody).
  apply lift_Ok in Hsup; destruct Hsup as [Hsup ->].
  apply bind_Ok in Hbody; destruct Hbody as (pid & w1 & Hpid & Hbody).
  assert (Hw1 : pid = (if truthy supplied then supplied
                       else VStr (uuid (host w) (uuids_drawn w)))
                /\ host w1 = host w /\ clock_reads w1 = clock_reads w
                /\ payment_table w1 = payment_table w
                /\ uuids_drawn w1 = (if truthy supplied then uuids_drawn w
                                     else S (uuids_drawn w))
                /\ archive_bucket w1 = archive_bucket w
                /\ processing_queue w1 = processing_queue w).
  { destruct (truthy supplied); inv_run; repeat split. }
  destruct Hw1 as (Epid & Hh & Hc & Ht & Hu & Hab & Hpq). clear Hpid.
  apply bind_Ok in Hbody; destruct Hbody as (ts & ? & Hts & Hbody).
  apply Date_now_Ok in Hts. destruct Hts as [-> ->].
  apply bind_Ok in Hbody; destruct Hbody as (provider0 & ? & Hpr & Hbody).
  apply lift_Ok in Hpr; destruct Hpr as [Hpr ->].
  apply bind_Ok in Hbody; destruct Hbody as (amount0 & ? & Ham & Hbody).
  apply lift_Ok in Ham; destruct Ham as [Ham ->].
  apply bind_Ok in Hbody; destruct Hbody as (amount_text & ? & Hat & Hbody).
  apply lift_Ok in Hat; destruct Hat as [Hat ->].
  apply bind_Ok in Hbody; destruct Hbody as (amt & ? & Hamt & Hbody).
  apply lift_Ok in Hamt; destruct Hamt as [Hamt ->].
  apply bind_Ok in Hbody; destruct Hbody as (? & w2 & Hput & Hbody).
  unfold PutItem in Hput. apply send_Ok in Hput. destruct Hput as [_ Hput].
  apply bind_Ok in Hput; destruct Hput as (k & ? & Hk & Hput).
  apply lift_Ok in Hk; destruct Hk as [Hk ->].
  apply bind_Ok in Hput; destruct Hput as (it & ? & Hit & Hput).
  apply lift_Ok in Hit; destruct Hit as [Hit ->].
  apply modify_Ok in Hput. subst w2.
  apply bind_Ok in Hbody; destruct Hbody as (today & ? & Htoday & Hbody).
  apply Date_now_Ok in Htoday. destruct Htoday as [-> ->].
  apply bind_Ok in Hbody; destruct Hbody as (id_text & ? & Hid & Hbody).
  apply lift_Ok in Hid; destruct Hid as [Hid ->].
  inv_run. unfold respond in Hbody. apply ret_Ok in Hbody.
  destruct Hbody as [-> ->]. world_simpl.
  apply make_key_Ok in Hk. destruct Hk as (s & n & Es & _ & Hn & ->).
  rewrite Hh, Hc in *. rewrite Es in *.
  injection Hid as <-.
  apply check_item_cons in Hit. destruct Hit as (v1 & i1 & E1 & Hit & ->).
  apply check_item_cons in Hit. destruct Hit as (v2 & i2 & E2 & Hit & ->).
  apply check_item_cons in Hit. destruct Hit as (v3 & i3 & E3 & Hit & ->).
  apply check_item_cons in Hit. destruct Hit as (v4 & i4 & E4 & Hit & ->).
  apply check_item_cons in Hit. destruct Hit as (v5 & i5 & E5 & Hit & ->).
  apply check_item_cons in Hit. destruct Hit as (v6 & i6 & E6 & Hit & ->).
  simpl in Hit. injection Hit as <-.
  apply attr_S_Ok in E1. destruct E1 as (s1 & E1 & ->). injection E1 as <-.
  apply attr_N_Ok in E2. subst v2.
  apply attr_S_Ok in E3. destruct E3 as (prov & E3 & ->).
  apply attr_N_Ok in E4. subst v4.
  apply attr_S_Ok in E5. destruct E5 as (s5 & E5 & ->). injection E5 as <-.
  apply attr_S_Ok in E6. destruct E6 as (raw & E6 & ->).
  assert (Hraw : JSON_stringify payload = Some raw).
  { destruct (JSON_stringify payload); [injection E6 as ->; reflexivity
                                       | discriminate]. }
  assert (Hamt' : or_else amount_text (VStr "0") = VStr amt).
  { assert (Hshape : exists x, or_else amount_text (VStr "0") = VStr x).
    { unfold optional_toString in Hat.
      destruct amount0;
        try (injection Hat as <-; eexists; reflexivity);
        (destruct (toString_method _) as [t|]; [|discriminate];
         injection Hat as <-; unfold or_else;
         destruct (truthy (VStr t)); eexists; reflexivity). }
    destruct Hshape as (txt & Ex). rewrite Ex in Hamt.
    injection Hamt as <-. exact Ex. }
  exists (String c text), payload, supplied, s, n, provider0, prov, amount0,
         amount_text, amt, raw.
  rewrite Ht, Hab, Hpq.
  repeat (split; [first [reflexivity | assumption | symmetry; assumption]|]).
  reflexivity.
Qed.

(** X3.  An accepted webhook keeps the paymentId of its payload when
    the payload has one, which is then a string, and draws no UUID;
    otherwise it is given the next UUID, and exactly one is drawn.  The
    response carries this identifier and the time read first. *)
Theorem receiver_assigns_payment_id :
  forall (event : APIGatewayProxyEvent) (w : World) r w',
    path event <> "/health" -> httpMethod event <> "GET" ->
    handler event w = (Ok r, w') -> statusCode r = 200 ->
    exists text payload supplied pid,
      event_body event = Some text
      /\ JSON_parse text = Ok payload
      /\ get payload "paymentId" = Ok supplied
      /\ (truthy supplied = true ->
          supplied = VStr pid /\ uuids_drawn w' = uuids_drawn w)
      /\ (truthy supplied = false ->
          pid = uuid (host w) (uuids_drawn w)
          /\ uuids_drawn w' = S (uuids_drawn w))
      /\ result_body r =
         stringify_object
           [("message", VStr "Webhook received");
            ("paymentId", VStr pid);
            ("timestamp", VNum (of_Z (clock (host w) (clock_reads w))))].
Proof.
  intros event w r w' Hp Hm Hrun H200.
  destruct (receiver_accepts event w r w' Hp Hm Hrun H200)
    as (text & payload & supplied & pid & n & provider0 & prov & amount0
        & amount_text & amt & raw & Hb & Hparse & Hsup & Hpid & Hu & _ & _ & _
        & _ & _ & _ & _ & _ & _ & _ & ->).
  exists text, payload, supplied, pid.
  repeat (split; [assumption|]).
  split; [|split].
  - intros T. rewrite T in Hpid, Hu. auto.
  - intros F. rewrite F in Hpid, Hu. injection Hpid as ->. auto.
  - reflexivity.
Qed.

(** A webhook without a paymentId is given the next UUID. *)
Lemma receiver_assigns_payment_id_witness :
  let run := handler Scenario.anonymous Example.world in
  exists r,
    fst run = Ok r
    /\ uuids_drawn (snd run) = 1%nat
    /\ result_body r =
       stringify_object
         [("message", VStr "Webhook received");
          ("paymentId", VStr "3f0c9d1e-7a4b-4c2d-9e8f-112233445566");
          ("timestamp", VNum (of_Z 1730000000000))].
Proof.
  intro run. subst run.
  assert (Hc : match fst (handler Scenario.anonymous Example.world) with
               | Ok r => statusCode r = 200 | Throw _ => False end)
    by (vm_compute; reflexivity).
  destruct (fst (handler Scenario.anonymous Example.world)) as [r|e] eqn:Hr;
    [|destruct Hc].
  apply run_eq in Hr. exists r. split; [reflexivity|].
  destruct (receiver_assigns_payment_id Scenario.anonymous Example.world r
              (snd (handler Scenario.anonymous Example.world)))
    as (text & payload & supplied & pid & Hb & Hparse & Hsup & _ & Hnew & Hbody).
  - discriminate.
  - discriminate.
  - exact Hr.
  - exact Hc.
  - vm_compute in Hb. injection Hb as <-.
    vm_compute in Hparse. injection Hparse as <-.
    vm_compute in Hsup. injection Hsup as <-.
    destruct (Hnew eq_refl) as [-> Hu].
    split; [exact Hu | exact Hbody].
Defined.

(** X4.  An accepted webhook leaves, under its key, a record of
    exactly six attributes: the key, the provider ("unknown" without
    one), the amount as its own text ("0" when absent or of empty
    text), the status "received" and the payload serialized again.  It
    replaces any record under that key, leaves the other records as
    they were, and archives the payload, indented, as one object. *)
Theorem receiver_stores_received_record :
  forall (event : APIGatewayProxyEvent) (w : World) r w',
    path event <> "/health" -> httpMethod event <> "GET" ->
    handler event w = (Ok r, w') -> statusCode r = 200 ->
    exists text payload pid n provider0 prov amount0 amt raw,
      event_body event = Some text
      /\ JSON_parse text = Ok payload
      /\ JSON_stringify payload = Some raw
      /\ get payload "provider" = Ok provider0
      /\ (truthy provider0 = false -> prov = "unknown")
      /\ (truthy provider0 = true -> provider0 = VStr prov)
      /\ get payload "amount" = Ok amount0
      /\ (amount0 = VUndefined \/ amount0 = VNull -> amt = "0")
      /\ (forall s, amount0 <> VUndefined -> amount0 <> VNull ->
                    toString_method amount0 = Ok s ->
                    amt = if String.eqb s "" then "0" else s)
      /\ table_get (pid, n) (payment_table w') =
         Some [("paymentId", AttrS pid);
               ("timestamp",
                AttrN (number_to_string
                         (of_Z (clock (host w) (clock_reads w)))));
               ("provider", AttrS prov);
               ("amount", AttrN amt);
               ("status", AttrS "received");
               ("rawPayload", AttrS raw)]
      /\ (forall k, key_eqb k (pid, n) = false ->
                    table_get k (payment_table w')
                    = table_get k (payment_table w))
      /\ exists o, archive_bucket w' = (archive_bucket w ++ [o])%list
                   /\ s3_Body o = JSON_stringify_2 payload.
Proof.
  intros event w r w' Hp Hm Hrun H200.
  destruct (receiver_accepts event w r w' Hp Hm Hrun H200)
    as (text & payload & supplied & pid & n & provider0 & prov & amount0
        & amount_text & amt & raw & Hb & Hparse & Hsup & Hpid & Hu & Hpr & Hprov
        & Ham & Hat & Hamt & Hraw & Hn & Ht & Ha & _).
  exists text, payload, pid, n, provider0, prov, amount0, amt, raw.
  repeat (split; [assumption|]).
  split; [|split; [|split; [assumption|split; [|split; [|split; [|split]]]]]].
  - intros F. unfold or_else in Hprov. rewrite F in Hprov.
    injection Hprov as <-. reflexivity.
  - intros T. unfold or_else in Hprov. rewrite T in Hprov. exact Hprov.
  - intros [-> | ->]; simpl in Hat; injection Hat as <-;
      unfold or_else in Hamt; simpl in Hamt; injection Hamt as <-;
      reflexivity.
  - intros s N1 N2 Hs. unfold optional_toString in Hat.
    destruct amount0; try congruence;
      rewrite Hs in Hat; injection Hat as <-;
      unfold or_else in Hamt; simpl in Hamt;
      destruct (String.eqb s ""); simpl in Hamt; injection Hamt as <-;
      reflexivity.
  - rewrite Ht. apply table_get_put.
  - intros k Hk. rewrite Ht. apply table_get_put_other. exact Hk.
  - eexists. split; [exact Ha | reflexivity].
Qed.

(** The record stored for the first scenario's webhook. *)
Lemma receiver_stores_received_record_witness :
  let run := handler Example.accepted Example.world in
  exists pid n raw,
    table_get (pid, n) (payment_table (snd run)) =
    Some [("paymentId", AttrS pid);
          ("timestamp", AttrN "1730000000000");
          ("provider", AttrS "stripe");
          ("amount", AttrN "15000");
          ("status", AttrS "received");
          ("rawPayload", AttrS raw)].
Proof.
  intro run. subst run.
  assert (Hok : fst (handler Example.accepted Example.world)
                = Ok Example.accepted_response) by (vm_compute; reflexivity).
  apply run_eq in Hok.
  destruct (receiver_stores_received_record Example.accepted Example.world
              Example.accepted_response
              (snd (handler Example.accepted Example.world)))
    as (text & payload & pid & n & provider0 & prov & amount0 & amt & raw
        & Hb & Hparse & Hraw & Hpr & _ & Hprov & Ham & _ & Hamt & Hget & _).
  - discriminate.
  - discriminate.
  - exact Hok.
  - reflexivity.
  - vm_compute in Hb. injection Hb as <-.
    vm_compute in Hparse. injection Hparse as <-.
    vm_compute in Hpr. injection Hpr as <-.
    vm_compute in Ham. injection Ham as <-.
    specialize (Hprov eq_refl). injection Hprov as <-.
    assert (Ha : amt = "15000").
    { apply (Hamt "15000"); [discriminate | discriminate | vm_compute; reflexivity]. }
    subst amt.
    exists pid, n, raw. exact Hget.
Defined.

End ReceiverFurther.

(** ** The processor, continued *)

Section ProcessorFurther.
Import EventProcessor.

(** X5.  A processed message changes the record under its own key
    only; of that record, when the receiver had stored it, only status,
    processedAt and currency are written, status becoming "processed":
    provider, amount and raw payload stay as stored. *)
Theorem processor_updates_one_record :
  forall (record : SQSRecord) (w : World) u w',
    process record w = (Ok u, w') ->
    exists message id ts ts_text n,
      JSON_parse (body record) = Ok message
      /\ get message "paymentId" = Ok (VStr id)
      /\ get message "timestamp" = Ok ts
      /\ toString_method ts = Ok ts_text
      /\ ddb_number ts_text = Some n
      /\ (forall k, key_eqb k (id, n) = false ->
                    table_get k (payment_table w')
                    = table_get k (payment_table w))
      /\ (forall item,
            table_get (id, n) (payment_table w) = Some item ->
            exists item',
              table_get (id, n) (payment_table w') = Some item'
              /\ item_get "status" item' = Some (AttrS "processed")
              /\ forall a,
                   a <> "status" -> a <> "processedAt" -> a <> "currency" ->
                   item_get a item' = item_get a item).
Proof.
  intros record w u w' H. apply process_Ok in H.
  destruct H as (message & pid & ts & payload & p & id & n & ts_text
                 & original & cur & Hm & Hpid & Hts & Hpl & Hp & -> & Htt & Hn
                 & Hor & Hcur & Hh & Hc & Ht & _).
  exists message, id, ts, ts_text, n.
  repeat (split; [assumption|]). split.
  - intros k Hk. rewrite Ht. unfold update_item.
    apply table_get_put_other. exact Hk.
  - intros item Hitem. rewrite Ht. unfold update_item. rewrite Hitem.
    rewrite table_get_put. eexists. split; [reflexivity|]. split.
    + cbn [item_set_all].
      rewrite !item_get_set_other by discriminate. apply item_get_set.
    + intros a H1 H2 H3. apply item_get_set_all_other.
      intros b v [E | [E | [E | []]]]; injection E as <- _; assumption.
Qed.

(** Processing the first scenario's message marks its record as
    processed and keeps the provider the receiver stored. *)
Lemma processor_updates_one_record_witness :
  let w := Example.received "pay_1" 15000 "succeeded" in
  let run := process Example.good_record w in
  fst run = Ok tt
  /\ exists n item',
       ddb_number "1730000000000" = Some n
       /\ table_get ("pay_1", n) (payment_table (snd run)) = Some item'
       /\ item_get "status" item' = Some (AttrS "processed")
       /\ item_get "provider" item' = Some (AttrS "stripe").
Proof.
  intros w run. subst run.
  assert (Hok : fst (process Example.good_record w) = Ok tt)
    by (vm_compute; reflexivity).
  split; [exact Hok|]. apply run_eq in Hok.
  destruct (processor_updates_one_record Example.good_record w tt
              (snd (process Example.good_record w)) Hok)
    as (message & id & ts & ts_text & n & Hm & Hid & Hts & Htt & Hn & _ & Hup).
  vm_compute in Hm. injection Hm as <-.
  vm_compute in Hid. injection Hid as <-.
  vm_compute in Hts. injection Hts as <-.
  vm_compute in Htt. injection Htt as <-.
  destruct (table_get ("pay_1", n) (payment_table w)) as [item|] eqn:Hitem.
  - destruct (Hup item eq_refl) as (item' & Hget & Hst & Hkeep).
    exists n, item'. split; [exact Hn|]. split; [exact Hget|].
    split; [exact Hst|].
    rewrite (Hkeep "provider") by discriminate.
    vm_compute in Hn. injection Hn as <-.
    vm_compute in Hitem. injection Hitem as <-. reflexivity.
  - exfalso. vm_compute in Hn. injection Hn as <-.
    vm_compute in Hitem. discriminate Hitem.
Defined.

(** X6.  The update does not require the record to exist: for a
    message whose key is not in the table, the processor creates a
    record of five attributes, the key, status "processed",
    processedAt and currency ("USD" without one), with neither
    provider, amount nor raw payload. *)
Theorem processor_creates_missing_record :
  forall (record : SQSRecord) (w : World) u w',
    process record w = (Ok u, w') ->
    exists message id ts ts_text n payload currency0 cur,
      JSON_parse (body record) = Ok message
      /\ get message "paymentId" = Ok (VStr id)
      /\ get message "timestamp" = Ok ts
      /\ toString_method ts = Ok ts_text
      /\ ddb_number ts_text = Some n
      /\ get message "payload" = Ok payload
      /\ get payload "currency" = Ok currency0
      /\ or_else currency0 (VStr "USD") = VStr cur
      /\ (table_get (id, n) (payment_table w) = None ->
          table_get (id, n) (payment_table w') =
          Some [("paymentId", AttrS id);
                ("timestamp", AttrN ts_text);
                ("status", AttrS "processed");
                ("processedAt",
                 AttrN (number_to_string
                          (of_Z (clock (host w) (S (clock_reads w))))));
                ("currency", AttrS cur)]).
Proof.
  intros record w u w' H. apply process_Ok in H.
  destruct H as (message & pid & ts & payload & p & id & n & ts_text
                 & original & cur & Hm & Hpid & Hts & Hpl & Hp & -> & Htt & Hn
                 & Hor & Hcur & Hh & Hc & Ht & _).
  apply processedPayment_Ok in Hp.
  destruct Hp as (provider0 & amount0 & currency0 & status0 & a & _ & _ & _
                  & Hc0 & _ & -> & _).
  cbn [currency] in Hcur.
  exists message, id, ts, ts_text, n, payload, currency0, cur.
  repeat (split; [assumption|]).
  intros Hnone. rewrite Ht. unfold update_item. rewrite Hnone.
  rewrite table_get_put. reflexivity.
Qed.

(** The same message on an empty table: the update creates the record. *)
Lemma processor_creates_missing_record_witness :
  let run := process Example.good_record Example.world in
  fst run = Ok tt
  /\ exists n,
       table_get ("pay_1", n) (payment_table (snd run)) =
       Some [("paymentId", AttrS "pay_1");
             ("timestamp", AttrN "1730000000000");
             ("status", AttrS "processed");
             ("processedAt", AttrN "1730000000001");
             ("currency", AttrS "USD")].
Proof.
  intro run. subst run.
  assert (Hok : fst (process Example.good_record Example.world) = Ok tt)
    by (vm_compute; reflexivity).
  split; [exact Hok|]. apply run_eq in Hok.
  destruct (processor_creates_missing_record Example.good_record Example.world
              tt (snd (process Example.good_record Example.world)) Hok)
    as (message & id & ts & ts_text & n & payload & currency0 & cur & Hm & Hid
        & Hts & Htt & Hn & Hpl & Hc0 & Hcur & Hnew).
  vm_compute in Hm. injection Hm as <-.
  vm_compute in Hid. injection Hid as <-.
  vm_compute in Hts. injection Hts as <-.
  vm_compute in Htt. injection Htt as <-.
  vm_compute in Hpl. injection Hpl as <-.
  vm_compute in Hc0. injection Hc0 as <-.
  vm_compute in Hcur. injection Hcur as <-.
  exists n. exact (Hnew eq_refl).
Defined.

(** X7.  A processed message puts exactly one event on the bus, of
    source payment.processor and type Payment Processed, whose detail
    is the normalized payment; a notification, when one is queued, has
    this same text.  The clock is read twice: the event's processedAt
    is the first reading, the stored one the second. *)
Theorem processor_publishes_normalized_event :
  forall (record : SQSRecord) (w : World) u w',
    process record w = (Ok u, w') ->
    exists message pid ts payload p detail,
      JSON_parse (body record) = Ok message
      /\ get message "paymentId" = Ok pid
      /\ get message "timestamp" = Ok ts
      /\ get message "payload" = Ok payload
      /\ fst (processedPayment pid ts payload w) = Ok p
      /\ detail = stringify_object (fields_of p)
      /\ event_bus w' =
         (event_bus w ++
          [{| Source := "payment.processor";
              DetailType := "Payment Processed";
              Detail := detail |}])%list
      /\ (notification_queue w' = notification_queue w
          \/ notification_queue w' = (notification_queue w ++ [detail])%list)
      /\ processedAt p = clock (host w) (clock_reads w)
      /\ clock_reads w' = S (S (clock_reads w))
      /\ exists id n item,
           pid = VStr id
           /\ table_get (id, n) (payment_table w') = Some item
           /\ item_get "processedAt" item
              = Some (AttrN (number_to_string
                               (of_Z (clock (host w) (S (clock_reads w)))))).
Proof.
  intros record w u w' H. apply process_Ok in H.
  destruct H as (message & pid & ts & payload & p & id & n & ts_text
                 & original & cur & Hm & Hpid & Hts & Hpl & Hp & -> & Htt & Hn
                 & Hor & Hcur & Hh & Hc & Ht & Hbus & Hq & _).
  exists message, (VStr id), ts, payload, p, (stringify_object (fields_of p)).
  repeat (split; [assumption|]).
  split; [rewrite Hp; reflexivity|]. split; [reflexivity|].
  split; [exact Hbus|]. split.
  - rewrite Hq. unfold notification_of.
    destruct (gt (amount p) (of_Z 10000) || strict_eq_string original "failed");
      [right; reflexivity | left; apply app_nil_r].
  - apply processedPayment_Ok in Hp.
    destruct Hp as (? & ? & ? & ? & ? & _ & _ & _ & _ & _ & -> & _).
    split; [reflexivity|]. split; [exact Hc|].
    exists id, n. eexists. split; [reflexivity|].
    rewrite Ht. unfold update_item. rewrite table_get_put.
    split; [reflexivity|]. cbn [item_set_all].
    rewrite item_get_set_other by discriminate. apply item_get_set.
Qed.

(** One event on the bus, one notification, two clock reads. *)
Lemma processor_publishes_normalized_event_witness :
  let w := Example.received "pay_1" 15000 "succeeded" in
  let run := process Example.good_record w in
  fst run = Ok tt
  /\ exists detail,
       event_bus (snd run) =
       (event_bus w ++ [{| Source := "payment.processor";
                           DetailType := "Payment Processed";
                           Detail := detail |}])%list
       /\ notification_queue (snd run) = [detail]
       /\ clock_reads (snd run) = S (S (clock_reads w)).
Proof.
  intros w run. subst run.
  assert (Hok : fst (process Example.good_record w) = Ok tt)
    by (vm_compute; reflexivity).
  split; [exact Hok|]. apply run_eq in Hok.
  destruct (processor_publishes_normalized_event Example.good_record w tt
              (snd (process Example.good_record w)) Hok)
    as (message & pid & ts & payload & p & detail & _ & _ & _ & _ & _ & _
        & Hbus & Hq & _ & Hc & _).
  exists detail. split; [exact Hbus|]. split; [|exact Hc].
  destruct Hq as [Hq | Hq].
  - exfalso.
    assert (Hl : List.length (notification_queue (snd (process Example.good_record w)))
                 = 1%nat) by (vm_compute; reflexivity).
    rewrite Hq in Hl. vm_compute in Hl. discriminate Hl.
  - rewrite Hq. reflexivity.
Defined.





Lemma process_frame record w :
  let w' := snd (process record w) in
  processing_queue w' = processing_queue w
  /\ archive_bucket w' = archive_bucket w
  /\ alert_topic w' = alert_topic w.
Proof.
  cbv zeta. destruct (process record w) as [[u|e] w'] eqn:H; simpl.
  - apply process_Ok in H.
    destruct H as (? & ? & ? & ? & ? & ? & ? & ? & ? & ? & _ & _ & _ & _ & _ & _
                   & _ & _ & _ & _ & _ & _ & _ & _ & _ & H1 & H2 & H3).
    auto.
  - apply process_Throw in H. destruct H as (_ & H1 & H2 & H3). auto.
Qed.

(** X10.  Whatever the batch and however it ends, the processor
    writes neither to the processing queue it reads from, nor to the
    archive, nor to the alert topic. *)
Theorem processor_leaves_other_stores_alone :
  forall (records : list SQSRecord) (w : World),
    let w' := snd (EventProcessor.handler records w) in
    processing_queue w' = processing_queue w
    /\ archive_bucket w' = archive_bucket w
    /\ alert_topic w' = alert_topic w.
Proof.
  intros records w. cbv zeta. unfold EventProcessor.handler.
  split; [|split].
  - apply (for_each_frame processing_queue). intros r w0.
    apply (process_frame r w0).
  - apply (for_each_frame archive_bucket). intros r w0.
    apply (process_frame r w0).
  - apply (for_each_frame alert_topic). intros r w0.
    apply (process_frame r w0).
Qed.

End ProcessorFurther.

(** ** The notifier, continued *)

Section NotifierFurther.
Import NotificationHandler.

Lemma Date_toISOString_value v w s w' :
  Date_toISOString v w = (Ok s, w') ->
  exists t, time_value (Date_parse (host w)) v = Ok (Some t)
            /\ s = toISOString t /\ w' = w.
Proof.
  unfold Date_toISOString.
  destruct (time_value (Date_parse (host w)) v) as [[t|]|e]; intros H;
    try discriminate.
  injection H as <- <-. eauto.
Qed.

(** The alert a message stands for, when every text in it can be made. *)
Lemma notify_found record w u w' :
  notify record w = (Ok u, w') ->
  exists payment pid ts ts_text k,
    JSON_parse (body record) = Ok payment
    /\ get payment "paymentId" = Ok pid
    /\ get payment "timestamp" = Ok ts
    /\ toString_method ts = Ok ts_text
    /\ make_key pid ts_text = Ok k
    /\ host w' = host w
    /\ payment_table w' = payment_table w
    /\ ((table_get k (payment_table w) = None
         /\ alert_topic w' = alert_topic w)
        \/ exists amount0 a provider0 status0,
             table_get k (payment_table w) <> None
             /\ get payment "amount" = Ok amount0
             /\ parseFloat (or_else amount0 (VNum pos_zero)) = Ok a
             /\ get payment "provider" = Ok provider0
             /\ get payment "status" = Ok status0
             /\ let status := or_else status0 (VStr "unknown") in
                let failed := strict_eq_string status "failed" in
                if gt a (of_Z 10000) || failed
                then exists id prov cur0 cur st pa t,
                       ToString pid = Ok id
                       /\ ToString (or_else provider0 (VStr "unknown")) = Ok prov
                       /\ get payment "currency" = Ok cur0
                       /\ ToString (or_else cur0 (VStr "USD")) = Ok cur
                       /\ ToString status = Ok st
                       /\ get payment "processedAt" = Ok pa
                       /\ time_value (Date_parse (host w)) (or_else pa ts)
                          = Ok (Some t)
                       /\ alert_topic w' =
                          (alert_topic w ++
                           [{| Subject := subject failed a;
                               Message := message failed a id prov cur st
                                            (toISOString t) |}])%list
                else alert_topic w' = alert_topic w).
Proof.
  intros H. unfold notify in H. apply try_rethrow_Ok in H.
  apply bind_Ok in H; destruct H as (payment & ? & Hp & H).
  apply lift_Ok in Hp; destruct Hp as [Hp ->].
  apply bind_Ok in H; destruct H as (pid & ? & Hpid & H).
  apply lift_Ok in Hpid; destruct Hpid as [Hpid ->].
  apply bind_Ok in H; destruct H as (ts & ? & Hts & H).
  apply lift_Ok in Hts; destruct Hts as [Hts ->].
  apply bind_Ok in H; destruct H as (ts_text & ? & Htt & H).
  apply lift_Ok in Htt; destruct Htt as [Htt ->].
  apply bind_Ok in H; destruct H as (item & w1 & Hg & H).
  unfold GetItem in Hg. apply send_Ok in Hg. destruct Hg as [_ Hg].
  apply bind_Ok in Hg; destruct Hg as (k & ? & Hk & Hg).
  apply lift_Ok in Hk; destruct Hk as [Hk ->].
  injection Hg as <- <-.
  exists payment, pid, ts, ts_text, k. repeat (split; [assumption|]).
  world_simpl.
  destruct (table_get k (payment_table w)) as [it|] eqn:Hget.
  - apply bind_Ok in H; destruct H as (amount0 & ? & Ha0 & H).
    apply lift_Ok in Ha0; destruct Ha0 as [Ha0 ->].
    apply bind_Ok in H; destruct H as (a & ? & Ha & H).
    apply lift_Ok in Ha; destruct Ha as [Ha ->].
    apply bind_Ok in H; destruct H as (prov0 & ? & Hpr & H).
    apply lift_Ok in Hpr; destruct Hpr as [Hpr ->].
    apply bind_Ok in H; destruct H as (status0 & ? & Hst & H).
    apply lift_Ok in Hst; destruct Hst as [Hst ->].
    cbv zeta in H.
    destruct (gt a (of_Z 10000)
              || strict_eq_string (or_else status0 (VStr "unknown")) "failed")
      eqn:Hcond.
    + apply bind_Ok in H; destruct H as (id & ? & Hid & H).
      apply lift_Ok in Hid; destruct Hid as [Hid ->].
      apply bind_Ok in H; destruct H as (prov & ? & Hprov & H).
      apply lift_Ok in Hprov; destruct Hprov as [Hprov ->].
      apply bind_Ok in H; destruct H as (cur0 & ? & Hc0 & H).
      apply lift_Ok in Hc0; destruct Hc0 as [Hc0 ->].
      apply bind_Ok in H; destruct H as (cur & ? & Hc & H).
      apply lift_Ok in Hc; destruct Hc as [Hc ->].
      apply bind_Ok in H; destruct H as (st & ? & Hs & H).
      apply lift_Ok in Hs; destruct Hs as [Hs ->].
      apply bind_Ok in H; destruct H as (pa & ? & Hpa & H).
      apply lift_Ok in Hpa; destruct Hpa as [Hpa ->].
      apply bind_Ok in H; destruct H as (when & ? & Hw & H).
      apply Date_toISOString_value in Hw. destruct Hw as (t & Ht & -> & ->).
      apply bind_Ok in H; destruct H as (? & w2 & Hpub & H).
      unfold Publish in Hpub. apply send_Ok in Hpub. destruct Hpub as [_ Hpub].
      apply modify_Ok in Hpub. subst w2.
      apply console_log_Ok in H. subst w'. world_simpl.
      split; [reflexivity|]. split; [reflexivity|]. right.
      exists amount0, a, prov0, status0.
      split; [discriminate|]. repeat (split; [assumption|]).
      cbv zeta. rewrite Hcond.
      exists id, prov, cur0, cur, st, pa, t.
      repeat (split; [assumption|]). reflexivity.
    + apply ret_Ok in H. destruct H as [_ ->]. world_simpl.
      split; [reflexivity|]. split; [reflexivity|]. right.
      exists amount0, a, prov0, status0.
      split; [discriminate|]. repeat (split; [assumption|]).
      cbv zeta. rewrite Hcond. reflexivity.
  - apply bind_Ok in H; destruct H as (id & ? & Hid & H).
    apply lift_Ok in Hid; destruct Hid as [Hid ->].
    unfold console_warn in H. apply modify_Ok in H. subst w'. world_simpl.
    split; [reflexivity|]. split; [reflexivity|]. left. split; reflexivity.
Qed.

Lemma Date_toISOString_same v w r w' :
  Date_toISOString v w = (r, w') -> w' = w.
Proof.
  unfold Date_toISOString.
  destruct (time_value (Date_parse (host w)) v) as [[t|]|e]; intros H;
    injection H as _ <-; reflexivity.
Qed.

Ltac inv_all :=
  repeat first
    [ progress inv_fail
    | match goal with
      | H : (Ok _, _) = (Throw _, _) |- _ => discriminate H
      | H : (Ok _, _) = (Ok _, _) |- _ => injection H as ? ?; subst
      | H : Date_toISOString _ _ = (_, _) |- _ =>
          apply Date_toISOString_same in H; subst
      | H : (match ?x with Some _ => _ | None => _ end) _ = (_, _) |- _ =>
          destruct x
      end ].

Lemma notify_frame record w :
  let w' := snd (notify record w) in
  host w' = host w
  /\ payment_table w' = payment_table w
  /\ archive_bucket w' = archive_bucket w
  /\ processing_queue w' = processing_queue w
  /\ notification_queue w' = notification_queue w
  /\ event_bus w' = event_bus w.
Proof.
  cbv zeta. destruct (notify record w) as [[u|e] w'] eqn:H; simpl.
  - unfold notify in H. apply try_rethrow_Ok in H.
    inv_all; world_simpl; repeat split; reflexivity.
  - unfold notify in H. apply try_rethrow_Throw in H.
    destruct H as (w0 & H & ->). world_simpl.
    inv_all; world_simpl;
      try (match goal with
           | K : make_key _ _ = Ok _, T : ToString _ = Throw _ |- _ =>
               apply make_key_Ok in K; destruct K as (? & ? & -> & _);
               discriminate T
           end);
      repeat split; reflexivity.
Qed.

Lemma notify_alerts_at_most_once record w :
  exists alerts,
    alert_topic (snd (notify record w)) = (alert_topic w ++ alerts)%list
    /\ (List.length alerts <= 1)%nat.
Proof.
  destruct (notify record w) as [[u|e] w'] eqn:H; simpl.
  - apply notify_found in H.
    destruct H as (payment & pid & ts & ts_text & k & _ & _ & _ & _ & _ & _ & _
                   & [[_ Hsame] | Hfound]).
    + exists []. rewrite Hsame, app_nil_r. auto.
    + destruct Hfound as (amount0 & a & p0 & s0 & _ & _ & _ & _ & _ & Hsend).
      cbv zeta in Hsend.
      destruct (gt a (of_Z 10000)
                || strict_eq_string (or_else s0 (VStr "unknown")) "failed").
      * destruct Hsend as (id & prov & c0 & cur & st & pa & t & _ & _ & _ & _
                           & _ & _ & _ & Hsend).
        eexists. split; [exact Hsend | simpl; auto].
      * exists []. rewrite Hsend, app_nil_r. auto.
  - apply notify_Throw in H. destruct H as [H _].
    exists []. rewrite H, app_nil_r. auto.
Qed.

Lemma handler_alerts_at_most_once_each records :
  forall w, exists alerts,
    alert_topic (snd (handler records w)) = (alert_topic w ++ alerts)%list
    /\ (List.length alerts <= List.length records)%nat.
Proof.
  unfold handler. induction records as [|r rs IH]; intros w; simpl.
  - exists []. rewrite app_nil_r. auto.
  - unfold bind.
    destruct (notify_alerts_at_most_once r w) as (l1 & H1 & L1).
    destruct (notify r w) as [[u|e] w1]; simpl in *.
    + destruct (IH w1) as (l2 & H2 & L2).
      exists (l1 ++ l2)%list. rewrite H2, H1, app_assoc, length_app.
      split; [reflexivity | lia].
    + exists l1. split; [exact H1 | lia].
Qed.

(** X11.  Whatever the batch and however it ends, the notifier only
    reads the payment table; it leaves the archive, both queues and
    the bus alone, and adds to the alert topic at most one alert for
    each message. *)
Theorem notifier_only_reads_the_store :
  forall (records : list SQSRecord) (w : World),
    let w' := snd (handler records w) in
    payment_table w' = payment_table w
    /\ archive_bucket w' = archive_bucket w
    /\ processing_queue w' = processing_queue w
    /\ notification_queue w' = notification_queue w
    /\ event_bus w' = event_bus w
    /\ exists alerts,
         alert_topic w' = (alert_topic w ++ alerts)%list
         /\ (List.length alerts <= List.length records)%nat.
Proof.
  intros records w. cbv zeta. unfold handler.
  split; [apply (for_each_frame payment_table); intros r w0;
          apply (notify_frame r w0)|].
  split; [apply (for_each_frame archive_bucket); intros r w0;
          apply (notify_frame r w0)|].
  split; [apply (for_each_frame processing_queue); intros r w0;
          apply (notify_frame r w0)|].
  split; [apply (for_each_frame notification_queue); intros r w0;
          apply (notify_frame r w0)|].
  split; [apply (for_each_frame event_bus); intros r w0;
          apply (notify_frame r w0)|].
  apply handler_alerts_at_most_once_each.
Qed.

(** X12.  For a notification whose payment is in the table and whose
    run completes, one alert is published when the amount of the
    message is above 10000 or its status is "failed", and none
    otherwise.  The amount and status are those of the message, not of
    the stored record. *)
Theorem notifier_alerts_iff_high_value_or_failed :
  forall (record : SQSRecord) (w : World) u w',
    notify record w = (Ok u, w') ->
    exists payment pid ts ts_text k,
      JSON_parse (body record) = Ok payment
      /\ get payment "paymentId" = Ok pid
      /\ get payment "timestamp" = Ok ts
      /\ toString_method ts = Ok ts_text
      /\ make_key pid ts_text = Ok k
      /\ (table_get k (payment_table w) <> None ->
          exists amount0 a status0,
            get payment "amount" = Ok amount0
            /\ parseFloat (or_else amount0 (VNum pos_zero)) = Ok a
            /\ get payment "status" = Ok status0
            /\ (gt a (of_Z 10000) = true \/ status0 = VStr "failed" ->
                exists alert,
                  alert_topic w' = (alert_topic w ++ [alert])%list)
            /\ (~ (gt a (of_Z 10000) = true \/ status0 = VStr "failed") ->
                alert_topic w' = alert_topic w)).
Proof.
  intros record w u w' H. apply notify_found in H.
  destruct H as (payment & pid & ts & ts_text & k & Hp & Hpid & Hts & Htt & Hk
                 & _ & _ & Hcase).
  exists payment, pid, ts, ts_text, k. repeat (split; [assumption|]).
  intros Hsome. destruct Hcase as [[Hnone _] | Hfound]; [congruence|].
  destruct Hfound as (amount0 & a & p0 & s0 & _ & Ha0 & Ha & _ & Hs & Hsend).
  exists amount0, a, s0. repeat (split; [assumption|]).
  cbv zeta in Hsend.
  assert (Hfailed : strict_eq_string (or_else s0 (VStr "unknown")) "failed"
                    = true <-> s0 = VStr "failed").
  { rewrite strict_eq_string_iff. unfold or_else.
    destruct (truthy s0) eqn:T; [reflexivity|].
    split; [discriminate | intros ->; discriminate]. }
  destruct (gt a (of_Z 10000)) eqn:G;
    destruct (strict_eq_string (or_else s0 (VStr "unknown")) "failed") eqn:F;
    cbn [orb] in Hsend.
  1-3: split;
       [ intros _;
         destruct Hsend as (? & ? & ? & ? & ? & ? & ? & _ & _ & _ & _ & _ & _
                            & _ & Hsend);
         eexists; exact Hsend
       | intros N; exfalso; apply N;
         first [left; reflexivity | right; apply Hfailed; reflexivity] ].
  split.
  - intros [C | C]; [discriminate|].
    apply Hfailed in C. discriminate.
  - intros _. exact Hsend.
Qed.

(** The notification of a stored payment of 20000: one alert. *)
Lemma notifier_alerts_iff_high_value_or_failed_witness :
  let w := Example.received "pay_1" 15000 "succeeded" in
  let run := notify (Scenario.notice 1730000000002) w in
  fst run = Ok tt
  /\ exists alert, alert_topic (snd run) = (alert_topic w ++ [alert])%list.
Proof.
  intros w run. subst run.
  assert (Hok : fst (notify (Scenario.notice 1730000000002) w) = Ok tt)
    by (vm_compute; reflexivity).
  split; [exact Hok|]. apply run_eq in Hok.
  destruct (notifier_alerts_iff_high_value_or_failed
              (Scenario.notice 1730000000002) w tt
              (snd (notify (Scenario.notice 1730000000002) w)) Hok)
    as (payment & pid & ts & ts_text & k & Hp & Hpid & Hts & Htt & Hk & Hfound).
  vm_compute in Hp. injection Hp as <-.
  vm_compute in Hpid. injection Hpid as <-.
  vm_compute in Hts. injection Hts as <-.
  vm_compute in Htt. injection Htt as <-.
  vm_compute in Hk. injection Hk as <-.
  destruct Hfound as (amount0 & a & status0 & Ha0 & Ha & _ & Hyes & _).
  - vm_compute. discriminate.
  - vm_compute in Ha0. injection Ha0 as <-.
    vm_compute in Ha. injection Ha as <-.
    apply Hyes. left. vm_compute. reflexivity.
Defined.



(** X14.  The notifier keeps no trace of what it sent: a
    notification delivered a second time publishes the same alert a
    second time. *)
Theorem notifier_redelivery_repeats_alert :
  forall (record : SQSRecord) (w : World) u1 w1 u2 w2,
    notify record w = (Ok u1, w1) ->
    notify record w1 = (Ok u2, w2) ->
    exists alerts,
      (List.length alerts <= 1)%nat
      /\ alert_topic w1 = (alert_topic w ++ alerts)%list
      /\ alert_topic w2 = (alert_topic w ++ alerts ++ alerts)%list.
Proof.
  intros record w u1 w1 u2 w2 H1 H2.
  apply notify_found in H1.
  destruct H1 as (payment & pid & ts & ts_text & k & Hp & Hpid & Hts & Htt & Hk
                  & Hh & Ht & Hcase).
  apply notify_found in H2.
  destruct H2 as (payment' & pid' & ts' & ts_text' & k' & Hp' & Hpid' & Hts'
                  & Htt' & Hk' & _ & _ & Hcase').
  rewrite Hp in Hp'. injection Hp' as <-.
  rewrite Hpid in Hpid'. injection Hpid' as <-.
  rewrite Hts in Hts'. injection Hts' as <-.
  rewrite Htt in Htt'. injection Htt' as <-.
  rewrite Hk in Hk'. injection Hk' as <-.
  rewrite Ht, Hh in Hcase'.
  destruct Hcase as [[Hnone Hsame] | Hfound].
  - destruct Hcase' as [[_ Hsame'] | (? & ? & ? & ? & Hsome & _)];
      [|congruence].
    exists []. rewrite Hsame', Hsame, !app_nil_r. auto.
  - destruct Hfound as (amount0 & a & p0 & s0 & Hsome & Ha0 & Ha & Hp0 & Hs
                        & Hsend).
    destruct Hcase' as [[Hnone _] | Hfound']; [congruence|].
    destruct Hfound' as (amount0' & a' & p0' & s0' & _ & Ha0' & Ha' & Hp0' & Hs'
                         & Hsend').
    rewrite Ha0 in Ha0'. injection Ha0' as <-.
    rewrite Ha in Ha'. injection Ha' as <-.
    rewrite Hp0 in Hp0'. injection Hp0' as <-.
    rewrite Hs in Hs'. injection Hs' as <-.
    cbv zeta in Hsend, Hsend'.
    destruct (gt a (of_Z 10000)
              || strict_eq_string (or_else s0 (VStr "unknown")) "failed").
    + destruct Hsend as (id & prov & c0 & cur & st & pa & t & Hid & Hprov & Hc0
                         & Hcur & Hst & Hpa & Hdate & Hsend).
      destruct Hsend' as (id' & prov' & c0' & cur' & st' & pa' & t' & Hid'
                          & Hprov' & Hc0' & Hcur' & Hst' & Hpa' & Hdate'
                          & Hsend').
      rewrite Hid in Hid'. injection Hid' as <-.
      rewrite Hprov in Hprov'. injection Hprov' as <-.
      rewrite Hc0 in Hc0'. injection Hc0' as <-.
      rewrite Hcur in Hcur'. injection Hcur' as <-.
      rewrite Hst in Hst'. injection Hst' as <-.
      rewrite Hpa in Hpa'. injection Hpa' as <-.
      rewrite Hdate in Hdate'. injection Hdate' as <-.
      eexists. split; [|split; [exact Hsend|]].
      * simpl. auto.
      * rewrite Hsend', Hsend, <- app_assoc. reflexivity.
    + exists []. rewrite Hsend', Hsend, !app_nil_r. auto.
Qed.

(** The same notification delivered twice: two alerts, the same. *)
Lemma notifier_redelivery_repeats_alert_witness :
  let w := Example.received "pay_1" 15000 "succeeded" in
  let run1 := notify (Scenario.notice 1730000000002) w in
  let run2 := notify (Scenario.notice 1730000000002) (snd run1) in
  List.length (alert_topic (snd run2)) = 2%nat
  /\ exists alerts,
       (List.length alerts <= 1)%nat
       /\ alert_topic (snd run1) = (alert_topic w ++ alerts)%list
       /\ alert_topic (snd run2) = (alert_topic w ++ alerts ++ alerts)%list.
Proof.
  intros w run1 run2.
  split; [vm_compute; reflexivity|].
  assert (H1 : fst run1 = Ok tt) by (vm_compute; reflexivity).
  assert (H2 : fst run2 = Ok tt) by (vm_compute; reflexivity).
  apply run_eq in H1. apply run_eq in H2.
  exact (notifier_redelivery_repeats_alert (Scenario.notice 1730000000002) w
           tt (snd run1) tt (snd run2) H1 H2).
Defined.

End NotifierFurther.

(** ** The routing rules, continued *)

Section RulesFurther.
Import EventBridge.

Lemma gt_excludes_le x bound : gt x bound = true -> le x bound = false.
Proof.
  unfold gt, le, SFltb, SFleb. rewrite (SFcompare_antisym bound x).
  destruct (SFcompare x bound) as [[]|]; simpl; congruence.
Qed.

Lemma matches_high sfx e :
  matches (HighValuePaymentRule sfx) e = true <->
  Source e = "payment.processor" /\ DetailType e = "Payment Processed"
  /\ exists a, amount_of e = Some a /\ gt a (of_Z 10000) = true.
Proof.
  unfold matches. cbn [source detailType detail_amount HighValuePaymentRule existsb].
  rewrite !orb_false_r, !andb_true_iff, !String.eqb_eq.
  destruct (amount_of e) as [a|]; cbn [fst snd numeric]; rewrite ?orb_false_r.
  - split.
    + intros [[Hs Hd] Hg]. eauto.
    + intros (Hs & Hd & a' & Ha & Hg). injection Ha as <-. auto.
  - split.
    + intros [_ H]. discriminate H.
    + intros (_ & _ & a & Ha & _). discriminate Ha.
Qed.

Lemma matches_standard sfx e :
  matches (StandardPaymentRule sfx) e = true <->
  Source e = "payment.processor" /\ DetailType e = "Payment Processed"
  /\ exists a, amount_of e = Some a /\ le a (of_Z 10000) = true.
Proof.
  unfold matches. cbn [source detailType detail_amount StandardPaymentRule existsb].
  rewrite !orb_false_r, !andb_true_iff, !String.eqb_eq.
  destruct (amount_of e) as [a|]; cbn [fst snd numeric]; rewrite ?orb_false_r.
  - split.
    + intros [[Hs Hd] Hg]. eauto.
    + intros (Hs & Hd & a' & Ha & Hg). injection Ha as <-. auto.
  - split.
    + intros [_ H]. discriminate H.
    + intros (_ & _ & a & Ha & _). discriminate Ha.
Qed.

(** X15.  No event matches both routing rules.  An event matches
    one of them exactly when its source is payment.processor, its type
    Payment Processed and the amount of its detail a number other than
    NaN; an event whose amount is not a number (a text, null, absent)
    matches neither. *)
Theorem rules_never_both_match :
  forall (environmentSuffix : string) (e : BusEntry),
    let high := matches (HighValuePaymentRule environmentSuffix) e in
    let standard := matches (StandardPaymentRule environmentSuffix) e in
    high && standard = false
    /\ (high || standard = true <->
        Source e = "payment.processor"
        /\ DetailType e = "Payment Processed"
        /\ exists a, amount_of e = Some a /\ is_nan a = false)
    /\ (forall d x, JSON_parse (Detail e) = Ok d ->
                    get d "amount" = Ok x ->
                    (forall a, x <> VNum a) -> high = false /\ standard = false).
Proof.
  intros sfx e high standard.
  split; [|split].
  - destruct high eqn:Hh; [|reflexivity]. destruct standard eqn:Hs; [|reflexivity].
    exfalso. subst high standard.
    apply matches_high in Hh. apply matches_standard in Hs.
    destruct Hh as (_ & _ & a & Ha & Hg). destruct Hs as (_ & _ & a' & Ha' & Hl).
    rewrite Ha in Ha'. injection Ha' as <-.
    apply gt_excludes_le in Hg. congruence.
  - rewrite orb_true_iff. subst high standard.
    rewrite matches_high, matches_standard. split.
    + intros [(Hs & Hd & a & Ha & Hg) | (Hs & Hd & a & Ha & Hl)];
        (split; [exact Hs|]; split; [exact Hd|]; exists a; split; [exact Ha|]).
      * destruct a; try reflexivity. discriminate Hg.
      * destruct a; try reflexivity. discriminate Hl.
    + intros (Hs & Hd & a & Ha & Hn).
      destruct (gt a (of_Z 10000)) eqn:Hg.
      * left. eauto.
      * right. split; [exact Hs|]. split; [exact Hd|]. exists a. split; [exact Ha|].
        rewrite gt_is_not_le in Hg by (auto; reflexivity).
        destruct (le a (of_Z 10000)); [reflexivity | discriminate Hg].
  - intros d x Hp Hx Hnum.
    assert (Hnone : amount_of e = None).
    { unfold amount_of. rewrite Hp, Hx. destruct x; try reflexivity.
      exfalso. eapply Hnum. reflexivity. }
    subst high standard. unfold matches. rewrite Hnone, !andb_false_r. auto.
Qed.

End RulesFurther.
